(** * Media upload, retrieval and deletion handlers (cmd/media.go)

    A shallow embedding of [handleUploadMedia], [handleGetMedia],
    [handleDeleteMedia] and [processImage].  The blob store ([app.media]) and
    the metadata store ([app.core]) are in-memory stores threaded through the
    handlers as an explicit world; what the outside decides for one request
    (which port call fails, which key a store hands back, what the random
    source yields) is an [Oracle] value. *)

From Stdlib Require Import ZArith Ascii String List Bool Lia.
From stdpp Require Import base option list strings gmap fin_maps.

Local Open Scope string_scope.
Local Open Scope Z_scope.
Local Open Scope list_scope.

(** ** Pieces of the Go standard library the handlers call *)

Module strings.

(** ['A' <= c && c <= 'Z'] then [c += 'a' - 'A']. *)
Definition lower (c : ascii) : ascii :=
  let n := nat_of_ascii c in
  if ((65 <=? n) && (n <=? 90))%nat then ascii_of_nat (n + 32) else c.

(** The byte loop [strings.ToLower] runs on a string of ASCII bytes. *)
Fixpoint lowerASCII (s : string) : string :=
  match s with
  | EmptyString => EmptyString
  | String c rest => String (lower c) (lowerASCII rest)
  end.

(** No byte reaches [utf8.RuneSelf] (0x80). *)
Fixpoint isASCII (s : string) : bool :=
  match s with
  | EmptyString => true
  | String c rest => (nat_of_ascii c <? 128)%nat && isASCII rest
  end.

(** [strings.ToLower]: a string of ASCII bytes goes through the byte loop;
    any other string is [strings.Map(unicode.ToLower, s)], which rests on
    the Unicode case tables: these are not modelled, [mapLower] stands for
    that call. *)
Definition ToLower (mapLower : string -> string) (s : string) : string :=
  if isASCII s then lowerASCII s else mapLower s.

Definition HasPrefix (s prefix : string) : bool := String.prefix prefix s.

Definition TrimPrefix (s prefix : string) : string :=
  if HasPrefix s prefix
  then String.substring (String.length prefix)
                        (String.length s - String.length prefix) s
  else s.

Definition HasSuffix (s suffix : string) : bool :=
  let n := String.length s in
  let m := String.length suffix in
  (m <=? n)%nat && String.eqb (String.substring (n - m) m s) suffix.

Definition TrimSuffix (s suffix : string) : string :=
  if HasSuffix s suffix
  then String.substring 0 (String.length s - String.length suffix) s
  else s.

End strings.

Module filepath.

Definition IsPathSeparator (c : ascii) : bool := Ascii.eqb c "/"%char.

(** The loop of [filepath.Ext]: walk from the last byte towards the first,
    stop at a separator, return the suffix that starts at the first dot
    met.  [seen] is the part of the path already walked over. *)
Fixpoint ext_loop (rev_path : list ascii) (seen : string) : string :=
  match rev_path with
  | [] => ""
  | c :: before =>
      if IsPathSeparator c then ""
      else if Ascii.eqb c "."%char then String c seen
      else ext_loop before (String c seen)
  end.

Definition Ext (path : string) : string :=
  ext_loop (rev (list_ascii_of_string path)) "".

End filepath.

Module strconv.

Inductive NumError := ErrSyntax | ErrRange.

Definition digit (c : ascii) : option Z :=
  let n := Z.of_nat (nat_of_ascii c) in
  if (48 <=? n) && (n <=? 57) then Some (n - 48) else None.

Fixpoint digits (s : string) (acc : Z) : option Z :=
  match s with
  | EmptyString => Some acc
  | String c rest =>
      match digit c with
      | Some d => digits rest (acc * 10 + d)
      | None => None
      end
  end.

Definition maxInt : Z := 2 ^ 63 - 1.
Definition minInt : Z := - 2 ^ 63.

(** The sign in front, if any, and what follows it. *)
Definition split_sign (s : string) : bool * string :=
  match s with
  | String c rest =>
      if Ascii.eqb c "-"%char then (true, rest)
      else if Ascii.eqb c "+"%char then (false, rest)
      else (false, s)
  | EmptyString => (false, s)
  end.

(** [strconv.Atoi] on a 64-bit platform: an optional sign and decimal
    digits; 0 with a syntax error on anything else, the nearest bound with
    a range error on overflow. *)
Definition Atoi (s : string) : Z * option NumError :=
  let '(neg, body) := split_sign s in
  match body with
  | EmptyString => (0, Some ErrSyntax)
  | _ =>
      match digits body 0 with
      | None => (0, Some ErrSyntax)
      | Some n =>
          if neg
          then (if n <=? - minInt then (- n, None) else (minInt, Some ErrRange))
          else (if n <=? maxInt then (n, None) else (maxInt, Some ErrRange))
      end
  end.


End strconv.

(** ** The imaging package *)

Module image.

Record Point := { X : Z; Y : Z }.
Record Rectangle := { Min : Point; Max : Point }.

Definition Rect (x0 y0 x1 y1 : Z) : Rectangle :=
  {| Min := {| X := x0; Y := y0 |}; Max := {| X := x1; Y := y1 |} |}.

Definition Dx (r : Rectangle) : Z := X (Max r) - X (Min r).
Definition Dy (r : Rectangle) : Z := Y (Max r) - Y (Min r).

(** A decoded picture, by its bounds (the pixels play no part here). *)
Record Image := { Bounds : Rectangle }.

End image.

Module imaging.
Import image.

Inductive Format := JPEG | PNG | GIF | TIFF | BMP.

(** The bytes of a file, by what a decoder makes of them: an encoded
    picture of some format with its bounds, or anything else. *)
Inductive Content :=
| Pixels (f : Format) (bounds : Rectangle)
| Raw (bytes : string).

(** An encoded picture of the given width and height whose bounds start at
    the origin. *)
Definition Picture (f : Format) (w h : Z) : Content := Pixels f (Rect 0 0 w h).

Inductive ResampleFilter := Lanczos | Linear | NearestNeighbor.

(** Modelled from the spec: [imaging.Decode] belongs to the imaging package,
    which is not under src/.  Decoding fails on corrupt or unsupported
    content; a decoded picture has the bounds of the encoded one, which
    need not start at the origin (a GIF frame placed inside its screen). *)
Definition Decode (src : Content) : option Image :=
  match src with
  | Pixels _ bounds => Some {| Bounds := bounds |}
  | Raw _ => None
  end.

(** [a / b] rounded to the nearest integer, halves upwards. *)
Definition round_div (a b : Z) : Z := (2 * a + b) / (2 * b).

(** Modelled from the spec: [imaging.Resize] belongs to the imaging package,
    which is not under src/.  The result has the width asked for; a height
    of 0 stands for "auto", the height that keeps the aspect ratio:
    round(width * originalHeight / originalWidth). *)
Definition Resize (img : Image) (width height : Z) (filter : ResampleFilter) : Image :=
  let srcW := Dx (Bounds img) in
  let srcH := Dy (Bounds img) in
  let dstH := if height =? 0 then round_div (width * srcH) srcW else height in
  {| Bounds := Rect 0 0 width dstH |}.

(** Modelled from the spec: [imaging.Encode] belongs to the imaging package,
    which is not under src/.  [fails] is whether the encoder reports an
    error on this call. *)
Definition Encode (fails : bool) (img : Image) (format : Format) : option Content :=
  if fails then None
  else Some (Picture format (Dx (Bounds img)) (Dy (Bounds img))).

End imaging.

(** ** Errors and responses *)

Module http.
Definition StatusOK : Z := 200.
Definition StatusBadRequest : Z := 400.
Definition StatusInternalServerError : Z := 500.
End http.

(** The failures of the ports and libraries, and the HTTP errors the handlers
    build with [echo.NewHTTPError(code, app.i18n.Ts(key, params...))]. *)
Inductive error :=
| InvalidInput
| StorageFailure
| DecodeFailure
| EncodeFailure
| PersistenceFailure
| NotFound
| RandomGenerationFailure
| HTTPError (code : Z) (key : string) (params : list (string * string)).

(** [err.Error()]. *)
Definition Error (e : error) : string :=
  match e with
  | InvalidInput => "invalid input"
  | StorageFailure => "storage failure"
  | DecodeFailure => "decode failure"
  | EncodeFailure => "encode failure"
  | PersistenceFailure => "persistence failure"
  | NotFound => "not found"
  | RandomGenerationFailure => "random generation failure"
  | HTTPError _ key _ => key
  end.

Definition UnsupportedType (ext : string) : error :=
  HTTPError http.StatusBadRequest "media.unsupportedFileType" [("type", ext)].

Definition InvalidID : error :=
  HTTPError http.StatusBadRequest "globals.messages.invalidID" [].

(** ** Records of the data model *)

Module models.

(** [models.JSON], a map from field names to values (integers here). *)
Abbreviation JSON := (gmap string Z).

Record Media := {
  ID : Z;
  Filename : string;
  Thumb : string;
  ContentType : string;
  Meta : JSON;
  Provider : string
}.

Record PageResults := {
  Results : list Media;
  Total : Z;
  Page : Z;
  PerPage : Z
}.

End models.

Module multipart.

(** An uploaded form file: its client-side name, the Content-Type header
    of its part, and its bytes. *)
Record FileHeader := {
  Filename : string;
  Header_ContentType : string;
  Body : imaging.Content
}.

End multipart.

Module paginator.
Record Set_ := { Page : Z; PerPage : Z; Offset : Z; Limit : Z }.
End paginator.

(** What a handler reads from [echo.Context]: the form file (if the request
    carries one), the [id] route parameter (empty when the route has none),
    the [query] form value and the paginator's reading of the URL. *)
Record Context := {
  FormFile : option multipart.FileHeader;
  Param_id : string;
  FormValue_query : string;
  pg : paginator.Set_
}.

(** The body of a JSON response, inside [okResp]. *)
Inductive Data :=
| OneMedia (m : models.Media)
| Listing (p : models.PageResults)
| Flag (b : bool).

(** What a handler returns: a JSON response written, or an error. *)
Inductive Response :=
| JSON (code : Z) (body : Data)
| Failed (e : error).

(** [app.constants.MediaUpload]. *)
Record App := {
  Extensions : list string;
  MediaProvider : string
}.

(** ** The world: both stores and the record of port calls *)

Record Blob := { blob_contentType : string; blob_data : imaging.Content }.

Inductive Event :=
| EvPut (key contentType : string) (data : imaging.Content) (stored : option string)
| EvDelete (key : string) (done_ : bool)
| EvGetMedia (id : Z) (fileName : string) (found : bool)
| EvInsertMedia (fileName thumbName contentType : string) (meta : models.JSON)
                (provider : string) (done_ : bool)
| EvDeleteMedia (id : Z) (fileName : option string)
| EvQueryMedia (provider query : string) (offset limit : Z) (done_ : bool).

Record World := {
  blobs : gmap string Blob;
  rows : list models.Media;
  next_id : Z;
  log : list Event
}.

Definition emit (e : Event) (w : World) : World :=
  {| blobs := blobs w; rows := rows w; next_id := next_id w; log := log w ++ [e] |}.

Definition set_blobs (b : gmap string Blob) (w : World) : World :=
  {| blobs := b; rows := rows w; next_id := next_id w; log := log w |}.

Definition set_rows (r : list models.Media) (n : Z) (w : World) : World :=
  {| blobs := blobs w; rows := r; next_id := n; log := log w |}.

(** What the outside decides during one request. *)
Record Oracle := {
  open_fails : nat -> bool;          (* the n-th [file.Open()] of the request *)
  rand_read : option (nat -> nat);   (* crypto/rand: unavailable, or its bytes *)
  encode_fails : bool;               (* [imaging.Encode] reports an error *)
  put_fails : string -> bool;        (* [Put] fails on this key *)
  stored_as : string -> string;      (* the key [Put] stores under and returns *)
  delete_fails : string -> bool;     (* [Delete] fails on this key *)
  get_fails : bool;                  (* the metadata store fails on a lookup *)
  insert_fails : bool;               (* ... on an insert *)
  delete_media_fails : bool;         (* ... on a delete *)
  query_fails : bool                 (* ... on a query *)
}.

Inductive result (A : Type) :=
| Ok (a : A)
| Err (e : error).
Arguments Ok {A} a.
Arguments Err {A} e.

(** Calls that may fail and may change the world. *)
Definition M (A : Type) : Type := World -> result A * World.

Definition ret {A} (a : A) : M A := fun w => (Ok a, w).
Definition fail {A} (e : error) : M A := fun w => (Err e, w).
Definition bind {A B} (c : M A) (k : A -> M B) : M B :=
  fun w => match c w with
           | (Ok a, w') => k a w'
           | (Err e, w') => (Err e, w')
           end.

#[global] Instance M_ret : MRet M := @ret.
#[global] Instance M_bind : MBind M := fun A B k c => bind c k.

(** [v, err := c; if err != nil { return wrap(err) }]. *)
Definition orFail {A} (c : M A) (wrap : error -> error) : M A :=
  fun w => match c w with
           | (Ok a, w') => (Ok a, w')
           | (Err e, w') => (Err (wrap e), w')
           end.

(** ** The BlobStore port ([app.media]) *)

(** Modelled from the spec: the blob store behind [app.media] is not under
    src/.  [put(key, contentType, data) -> (storedKey, error)]: on success the
    blob is kept under the key the store returns, which may differ from the
    one asked for; on failure nothing is kept. *)
Definition Put (o : Oracle) (key contentType : string) (data : imaging.Content) : M string :=
  fun w =>
    if put_fails o key
    then (Err StorageFailure, emit (EvPut key contentType data None) w)
    else
      let k := stored_as o key in
      (Ok k,
       emit (EvPut key contentType data (Some k))
            (set_blobs (<[k := {| blob_contentType := contentType; blob_data := data |}]> (blobs w)) w)).

(** Modelled from the spec: [delete(key) -> error]; deleting a key that holds
    no blob is a no-op; a failing delete leaves the store as it was. *)
Definition Delete (o : Oracle) (key : string) : M unit :=
  fun w =>
    if delete_fails o key
    then (Err StorageFailure, emit (EvDelete key false) w)
    else (Ok tt, emit (EvDelete key true) (set_blobs (delete key (blobs w)) w)).

(** ** The MetadataStore port ([app.core]) *)

Definition by_id (id : Z) (m : models.Media) : bool := models.ID m =? id.
Definition by_name (fileName : string) (m : models.Media) : bool :=
  String.eqb (models.Filename m) fileName.

(** Modelled from the spec: [getMedia(id, filenameExact) -> MediaObject |
    NotFound]; the record with this id when the id is positive, else the
    record with exactly this filename.  Records carry no uuid here and the
    handlers pass the empty one. *)
Definition GetMedia (o : Oracle) (id : Z) (uuid fileName : string) : M models.Media :=
  fun w =>
    if get_fails o
    then (Err PersistenceFailure, emit (EvGetMedia id fileName false) w)
    else
      match List.find (if 0 <? id then by_id id else by_name fileName) (rows w) with
      | Some m => (Ok m, emit (EvGetMedia id fileName true) w)
      | None => (Err NotFound, emit (EvGetMedia id fileName false) w)
      end.

(** Modelled from the spec: [insertMedia(filename, thumbnailFilename,
    contentType, metadata, provider) -> MediaObject]; the store assigns the
    id.  Whether the store rejects this insert is the oracle's. *)
Definition InsertMedia (o : Oracle) (fileName thumbName contentType : string)
    (meta : models.JSON) (provider : string) : M models.Media :=
  fun w =>
    if insert_fails o
    then (Err PersistenceFailure,
          emit (EvInsertMedia fileName thumbName contentType meta provider false) w)
    else
      let m := {| models.ID := next_id w; models.Filename := fileName;
                  models.Thumb := thumbName; models.ContentType := contentType;
                  models.Meta := meta; models.Provider := provider |} in
      (Ok m,
       emit (EvInsertMedia fileName thumbName contentType meta provider true)
            (set_rows (rows w ++ [m]) (next_id w + 1) w)).

(** Modelled from the spec: [deleteMedia(id) -> filename | NotFound]. *)
Definition DeleteMedia (o : Oracle) (id : Z) : M string :=
  fun w =>
    if delete_media_fails o
    then (Err PersistenceFailure, emit (EvDeleteMedia id None) w)
    else
      match List.find (by_id id) (rows w) with
      | Some m =>
          (Ok (models.Filename m),
           emit (EvDeleteMedia id (Some (models.Filename m)))
                (set_rows (List.filter (fun r => negb (by_id id r)) (rows w)) (next_id w) w))
      | None => (Err NotFound, emit (EvDeleteMedia id None) w)
      end.

Definition matches (query fileName : string) : bool :=
  match query with
  | EmptyString => true
  | _ => match String.index 0 query fileName with Some _ => true | None => false end
  end.

(** Modelled from the spec: [queryMedia(provider, filterText, offset, limit)
    -> (items, totalCount)], a filtered, paginated scan in insertion order. *)
Definition QueryMedia (o : Oracle) (provider query : string) (offset limit : Z)
  : M (list models.Media * Z) :=
  fun w =>
    if query_fails o
    then (Err PersistenceFailure, emit (EvQueryMedia provider query offset limit false) w)
    else
      let sel := List.filter (fun m => String.eqb (models.Provider m) provider
                                       && matches query (models.Filename m)) (rows w) in
      (Ok (firstn (Z.to_nat limit) (skipn (Z.to_nat offset) sel), Z.of_nat (length sel)),
       emit (EvQueryMedia provider query offset limit true) w).

(** ** Helpers of the package that live outside media.go *)

(** Modelled from the spec: [inArray] is not under src/; membership of a
    string in a list of strings. *)
Definition inArray (val : string) (vals : list string) : bool :=
  existsb (String.eqb val) vals.

Definition dictionary : string :=
  "0123456789ABCDEFGHIJKLMNOPQRSTUVWXYZabcdefghijklmnopqrstuvwxyz".

Definition alnum (i : nat) : ascii :=
  nth (i mod 62) (list_ascii_of_string dictionary) "0"%char.

(** Modelled from the spec: [generateRandomString] is not under src/; a
    string of [n] alphanumeric characters drawn from the secure random
    source, or [RandomGenerationFailure] when that source is unavailable. *)
Definition generateRandomString (o : Oracle) (n : nat) : result string :=
  match rand_read o with
  | None => Err RandomGenerationFailure
  | Some bytes => Ok (string_of_list_ascii (map (fun k => alnum (bytes k)) (seq 0 n)))
  end.

(** Modelled from the spec: [appendSuffixToFilename] is not under src/; the
    suffix goes before the extension: report.png, x7Yq2a -> report_x7Yq2a.png. *)
Definition appendSuffixToFilename (filename suffix : string) : string :=
  let ext := filepath.Ext filename in
  let name := strings.TrimSuffix filename ext in
  name +:+ "_" +:+ suffix +:+ ext.

(** [file.Open()], the [n]-th of the request. *)
Definition Open (o : Oracle) (n : nat) (file : multipart.FileHeader) : result imaging.Content :=
  if open_fails o n then Err InvalidInput else Ok (multipart.Body file).

(** ** media.go *)

Definition thumbPrefix : string := "thumb_".
Definition thumbnailSize : Z := 250.

Definition vectorExts : list string := ["svg"].
Definition imageExts : list string := ["gif"; "png"; "jpg"; "jpeg"].

(** [processImage] (media.go 210-233): the thumbnail bytes and the original
    image's width and height. *)
Definition processImage (o : Oracle) (file : multipart.FileHeader)
  : result (imaging.Content * Z * Z) :=
  match Open o 1 file with
  | Err err => Err err
  | Ok src =>
      match imaging.Decode src with
      | None => Err DecodeFailure
      | Some img =>
          let thumb := imaging.Resize img thumbnailSize 0 imaging.Lanczos in
          match imaging.Encode (encode_fails o) thumb imaging.PNG with
          | None => Err EncodeFailure
          | Some out =>
              let b := image.Max (image.Bounds img) in
              Ok (out, image.X b, image.Y b)
          end
      end
  end.

(** media.go 63-72.  The name the upload goes ahead with: the sanitized one,
    or, when the lookup by filename returns no error, the one with a random
    suffix. *)
Definition resolveName (o : Oracle) (fName : string) : M string :=
  fun w =>
    match GetMedia o 0 "" fName w with
    | (Ok _, w1) =>
        match generateRandomString o 6 with
        | Err _ => (Err (HTTPError http.StatusInternalServerError
                                   "globals.messages.internalError" []), w1)
        | Ok suffix => (Ok (appendSuffixToFilename fName suffix), w1)
        end
    | (Err _, w1) => (Ok fName, w1)
    end.

(** media.go 104-122, the block under [if isImage]: the thumbnail's stored
    name and the original's width and height. *)
Definition makeThumbnail (o : Oracle) (file : multipart.FileHeader)
    (contentType fName : string) : M (string * Z * Z) :=
  match processImage o file with
  | Err err =>
      fail (HTTPError http.StatusInternalServerError "media.errorResizing"
                      [("error", Error err)])
  | Ok (thumbFile, w, h) =>
      tf ← orFail (Put o (thumbPrefix +:+ fName) contentType thumbFile)
                  (fun err => HTTPError http.StatusInternalServerError
                                        "media.errorSavingThumbnail" [("error", Error err)]);
      mret (tf, w, h)
  end.

(** media.go 84-87: the locals the deferred function reads when the handler
    returns. *)
Record Locals := { cleanUp : bool; thumbfName : string }.

(** media.go 98-144: the handler from the declaration of [cleanUp] to its
    last return, with the value of the locals at that return. *)
Definition afterPut (app : App) (o : Oracle) (file : multipart.FileHeader)
    (ext contentType fName : string) : World -> Response * Locals * World :=
  fun w =>
    let isImage := inArray ext imageExts in
    match (if isImage then makeThumbnail o file contentType fName
           else mret ("", 0, 0)) w with
    | (Err e, w1) => (Failed e, {| cleanUp := true; thumbfName := "" |}, w1)
    | (Ok (tf, width, height), w1) =>
        let thumbfName := if inArray ext vectorExts then fName else tf in
        let meta : models.JSON :=
          if isImage then <["width" := width]> (<["height" := height]> ∅) else ∅ in
        match InsertMedia o fName thumbfName contentType meta (MediaProvider app) w1 with
        | (Err err, w2) => (Failed err, {| cleanUp := true; thumbfName := thumbfName |}, w2)
        | (Ok m, w2) =>
            (JSON http.StatusOK (OneMedia m),
             {| cleanUp := false; thumbfName := thumbfName |}, w2)
        end
    end.

(** media.go 88-96: the deferred function of [handleUploadMedia]. *)
Definition deferred (o : Oracle) (fName : string) (l : Locals) (w : World) : World :=
  if cleanUp l then
    let w1 := snd (Delete o fName w) in
    if String.eqb (thumbfName l) "" then w1
    else snd (Delete o (thumbfName l) w1)
  else w.

Section Handlers.

(** The Unicode path of [strings.ToLower] is a parameter (see there). *)
Variable mapLower : string -> string.

(** [makeFilename] is not under src/: the sanitizer is a parameter. *)
Variable makeFilename : string -> string.

(** [handleUploadMedia] (media.go 27-145). *)
Definition handleUploadMedia (app : App) (o : Oracle) (c : Context)
  : World -> Response * World :=
  fun w =>
    match FormFile c with
    | None =>
        (Failed (HTTPError http.StatusBadRequest "media.invalidFile"
                           [("error", Error InvalidInput)]), w)
    | Some file =>
        match Open o 0 file with
        | Err err =>
            (Failed (HTTPError http.StatusInternalServerError "media.errorReadingFile"
                               [("error", Error err)]), w)
        | Ok src =>
            let ext := strings.TrimPrefix
                         (strings.ToLower mapLower
                            (filepath.Ext (multipart.Filename file))) "." in
            let contentType := multipart.Header_ContentType file in
            if negb (inArray "*" (Extensions app)) && negb (inArray ext (Extensions app))
            then (Failed (UnsupportedType ext), w)
            else
              let fName := makeFilename (multipart.Filename file) in
              match resolveName o fName w with
              | (Err e, w1) => (Failed e, w1)
              | (Ok fName, w1) =>
                  match Put o fName contentType src w1 with
                  | (Err err, w2) =>
                      (Failed (HTTPError http.StatusInternalServerError
                                         "media.errorUploading" [("error", Error err)]), w2)
                  | (Ok fName, w2) =>
                      let '(resp, locals, w3) :=
                        afterPut app o file ext contentType fName w2 in
                      (resp, deferred o fName locals w3)
                  end
              end
        end
    end.

End Handlers.

(** [handleGetMedia] (media.go 148-182). *)
Definition handleGetMedia (app : App) (o : Oracle) (c : Context)
  : World -> Response * World :=
  fun w =>
    let id := fst (strconv.Atoi (Param_id c)) in
    if 0 <? id then
      match GetMedia o id "" "" w with
      | (Err err, w1) => (Failed err, w1)
      | (Ok out, w1) => (JSON http.StatusOK (OneMedia out), w1)
      end
    else
      let pg := pg c in
      let query := FormValue_query c in
      match QueryMedia o (MediaProvider app) query
                       (paginator.Offset pg) (paginator.Limit pg) w with
      | (Err err, w1) => (Failed err, w1)
      | (Ok (res, total), w1) =>
          let out := {| models.Results := res; models.Total := total;
                        models.Page := paginator.Page pg;
                        models.PerPage := paginator.PerPage pg |} in
          (JSON http.StatusOK (Listing out), w1)
      end.

(** [handleDeleteMedia] (media.go 185-206). *)
Definition handleDeleteMedia (app : App) (o : Oracle) (c : Context)
  : World -> Response * World :=
  fun w =>
    let id := fst (strconv.Atoi (Param_id c)) in
    if id <? 1 then (Failed InvalidID, w)
    else
      match DeleteMedia o id w with
      | (Err err, w1) => (Failed err, w1)
      | (Ok fname, w1) =>
          let w2 := snd (Delete o fname w1) in
          let w3 := snd (Delete o (thumbPrefix +:+ fname) w2) in
          (JSON http.StatusOK (Flag true), w3)
      end.

(** ** Reading the record of port calls *)

(** The port calls made between world [w] and a later world [w']. *)
Definition issued (w w' : World) : list Event :=
  skipn (length (log w)) (log w').

Definition is_Put (e : Event) : bool :=
  match e with EvPut _ _ _ _ => true | _ => false end.

Definition is_GetMedia (e : Event) : bool :=
  match e with EvGetMedia _ _ _ => true | _ => false end.

Definition names (rs : list models.Media) : list string :=
  map models.Filename rs.

Definition alphanumeric (c : ascii) : bool :=
  let n := nat_of_ascii c in
  (((48 <=? n) && (n <=? 57)) || ((65 <=? n) && (n <=? 90)) || ((97 <=? n) && (n <=? 122)))%nat.

(** The extension the upload handler computes from the client's filename. *)
Definition extOf (mapLower : string -> string) (file : multipart.FileHeader) : string :=
  strings.TrimPrefix
    (strings.ToLower mapLower (filepath.Ext (multipart.Filename file))) ".".

(** The errors of the steps that come after the original's put: making the
    thumbnail, storing it, inserting the record (whose error is passed on). *)
Definition later_step_error (e : error) : Prop :=
  (exists err, e = HTTPError http.StatusInternalServerError "media.errorResizing"
                             [("error", Error err)])
  \/ (exists err, e = HTTPError http.StatusInternalServerError
                                "media.errorSavingThumbnail" [("error", Error err)])
  \/ e = PersistenceFailure.

(** ** Fixtures: a quiet oracle, an empty world, sample requests *)

Definition calm : Oracle :=
  {| open_fails := fun _ => false; rand_read := Some (fun k => k);
     encode_fails := false; put_fails := fun _ => false;
     stored_as := fun k => k; delete_fails := fun _ => false;
     get_fails := false; insert_fails := false;
     delete_media_fails := false; query_fails := false |}.

Definition with_insert_failing (o : Oracle) : Oracle :=
  {| open_fails := open_fails o; rand_read := rand_read o;
     encode_fails := encode_fails o; put_fails := put_fails o;
     stored_as := stored_as o; delete_fails := delete_fails o;
     get_fails := get_fails o; insert_fails := true;
     delete_media_fails := delete_media_fails o; query_fails := query_fails o |}.

Definition with_delete_failing (o : Oracle) : Oracle :=
  {| open_fails := open_fails o; rand_read := rand_read o;
     encode_fails := encode_fails o; put_fails := put_fails o;
     stored_as := stored_as o; delete_fails := fun _ => true;
     get_fails := get_fails o; insert_fails := insert_fails o;
     delete_media_fails := delete_media_fails o; query_fails := query_fails o |}.

Definition empty_world : World :=
  {| blobs := ∅; rows := []; next_id := 1; log := [] |}.

Definition any_ext : App := {| Extensions := ["*"]; MediaProvider := "filesystem" |}.
Definition png_jpg : App := {| Extensions := ["png"; "jpg"]; MediaProvider := "filesystem" |}.

Definition first_page : paginator.Set_ :=
  {| paginator.Page := 1; paginator.PerPage := 20;
     paginator.Offset := 0; paginator.Limit := 20 |}.

Definition upload (name contentType : string) (body : imaging.Content) : Context :=
  {| FormFile := Some {| multipart.Filename := name;
                         multipart.Header_ContentType := contentType;
                         multipart.Body := body |};
     Param_id := ""; FormValue_query := ""; pg := first_page |}.

Definition with_id (id : string) : Context :=
  {| FormFile := None; Param_id := id; FormValue_query := ""; pg := first_page |}.

(** A sanitizer for the examples: the name as it comes. *)
Definition keep : string -> string := fun name => name.

(** A stand-in for the Unicode path of [strings.ToLower] in the examples,
    whose filenames are all ASCII and never reach it. *)
Definition plain : string -> string := fun s => s.

Definition after (r : Response * World) : World := snd r.

Definition file_of (name contentType : string) (body : imaging.Content)
  : multipart.FileHeader :=
  {| multipart.Filename := name; multipart.Header_ContentType := contentType;
     multipart.Body := body |}.

Definition thumb_of (r : Response) : option string :=
  match r with
  | JSON _ (OneMedia m) => Some (models.Thumb m)
  | _ => None
  end.

Definition contentType_of (r : Response) : option string :=
  match r with
  | JSON _ (OneMedia m) => Some (models.ContentType m)
  | _ => None
  end.

(** Scenario A of the spec, then the same upload twice more with the random
    source yielding the same bytes each time. *)
Definition cat_png : Context := upload "cat.png" "image/png" (imaging.Picture imaging.PNG 800 600).
Definition one_cat : Response * World := handleUploadMedia plain keep any_ext calm cat_png empty_world.
Definition two_cats : Response * World := handleUploadMedia plain keep any_ext calm cat_png (after one_cat).
Definition three_cats : Response * World := handleUploadMedia plain keep any_ext calm cat_png (after two_cats).

Definition cat_file : multipart.FileHeader :=
  file_of "cat.png" "image/png" (imaging.Picture imaging.PNG 800 600).

(** The same upload when the metadata store refuses the insert. *)
Definition lost_cat : Response * World :=
  handleUploadMedia plain keep any_ext (with_insert_failing calm) cat_png empty_world.

Definition logo_file : multipart.FileHeader :=
  file_of "logo.svg" "image/svg+xml" (imaging.Raw "<svg/>").
Definition one_logo : Response * World :=
  handleUploadMedia plain keep any_ext calm (upload "logo.svg" "image/svg+xml" (imaging.Raw "<svg/>"))
                    empty_world.

Definition notes_file : multipart.FileHeader :=
  file_of "notes.pdf" "application/pdf" (imaging.Raw "%PDF-1.7").

Definition jpeg_file : multipart.FileHeader :=
  file_of "photo.JPG" "image/jpeg" (imaging.Picture imaging.JPEG 640 480).
Definition one_jpeg : Response * World :=
  handleUploadMedia plain keep any_ext calm
                    (upload "photo.JPG" "image/jpeg" (imaging.Picture imaging.JPEG 640 480))
                    empty_world.

(** The same upload when the insert is refused and the deletes fail too. *)
Definition stuck_cat : Response * World :=
  handleUploadMedia plain keep any_ext (with_delete_failing (with_insert_failing calm))
                    cat_png empty_world.

(** Scenario D of the spec: deleting the record of scenario A, with blob
    deletes that work and with blob deletes that fail. *)
Definition cat_deleted : Response * World :=
  handleDeleteMedia any_ext calm (with_id "1") (after one_cat).
Definition cat_half_deleted : Response * World :=
  handleDeleteMedia any_ext (with_delete_failing calm) (with_id "1") (after one_cat).

(** A GIF whose first frame, 20 wide and 20 high, sits at (10, 10) of its
    screen: the decoded picture has the bounds (10,10)-(30,30). *)
Definition offset_frame : image.Rectangle := image.Rect 10 10 30 30.
Definition one_frame : Response * World :=
  handleUploadMedia plain keep any_ext calm
                    (upload "frame.gif" "image/gif" (imaging.Pixels imaging.GIF offset_frame))
                    empty_world.

(** What Unicode lowering makes of the extension .GİF (U+0130, the dotted
    capital I, lowers to i); every other string is left as it comes, the
    examples have no other. *)
Definition lower_dotted_I : string -> string :=
  fun s => if String.eqb s ".GİF" then ".gif" else s.

Definition gif_only : App := {| Extensions := ["gif"]; MediaProvider := "filesystem" |}.

Definition dotted_gif : Response * World :=
  handleUploadMedia lower_dotted_I keep gif_only calm
                    (upload "pic.GİF" "image/gif" (imaging.Picture imaging.GIF 64 64))
                    empty_world.

(** A record for the examples, read out of a response. *)
Definition media_of (r : Response) : models.Media :=
  match r with
  | JSON _ (OneMedia m) => m
  | _ => {| models.ID := 0; models.Filename := ""; models.Thumb := "";
            models.ContentType := ""; models.Meta := ∅; models.Provider := "" |}
  end.

(** ** More readings of the record of port calls, more fixtures *)

Definition is_Delete (e : Event) : bool :=
  match e with EvDelete _ _ => true | _ => false end.

Definition is_InsertMedia (e : Event) : bool :=
  match e with EvInsertMedia _ _ _ _ _ _ => true | _ => false end.

(** The keys under which the puts among these calls stored a blob. *)
Fixpoint stored_keys (evs : list Event) : list string :=
  match evs with
  | [] => []
  | EvPut _ _ _ (Some k) :: rest => k :: stored_keys rest
  | _ :: rest => stored_keys rest
  end.

(** Whether the allowlist lets this extension through (media.go 53-58). *)
Definition allowed (app : App) (ext : string) : bool :=
  inArray "*" (Extensions app) || inArray ext (Extensions app).

Definition with_lookup_failing (o : Oracle) : Oracle :=
  {| open_fails := open_fails o; rand_read := rand_read o;
     encode_fails := encode_fails o; put_fails := put_fails o;
     stored_as := stored_as o; delete_fails := delete_fails o;
     get_fails := true; insert_fails := insert_fails o;
     delete_media_fails := delete_media_fails o; query_fails := query_fails o |}.

Definition without_random (o : Oracle) : Oracle :=
  {| open_fails := open_fails o; rand_read := None;
     encode_fails := encode_fails o; put_fails := put_fails o;
     stored_as := stored_as o; delete_fails := delete_fails o;
     get_fails := get_fails o; insert_fails := insert_fails o;
     delete_media_fails := delete_media_fails o; query_fails := query_fails o |}.

Definition with_put_failing (o : Oracle) : Oracle :=
  {| open_fails := open_fails o; rand_read := rand_read o;
     encode_fails := encode_fails o; put_fails := fun _ => true;
     stored_as := stored_as o; delete_fails := delete_fails o;
     get_fails := get_fails o; insert_fails := insert_fails o;
     delete_media_fails := delete_media_fails o; query_fails := query_fails o |}.

Definition logo_svg : Context := upload "logo.svg" "image/svg+xml" (imaging.Raw "<svg/>").

(** cat.png uploaded while every put fails. *)
Definition refused_cat : Response * World :=
  handleUploadMedia plain keep any_ext (with_put_failing calm) cat_png empty_world.

(** cat.png uploaded a second time while the lookup fails. *)
Definition unseen_cat : Response * World :=
  handleUploadMedia plain keep any_ext (with_lookup_failing calm) cat_png (after one_cat).

(** cat.png uploaded a second time while the random source is unavailable. *)
Definition unlucky_cat : Response * World :=
  handleUploadMedia plain keep any_ext (without_random calm) cat_png (after one_cat).

(** logo.svg uploaded while the insert is refused. *)
Definition lost_logo : Response * World :=
  handleUploadMedia plain keep any_ext (with_insert_failing calm) logo_svg empty_world.

(** A file named like a picture whose bytes are none. *)
Definition fake_png_file : multipart.FileHeader :=
  file_of "fake.png" "image/png" (imaging.Raw "not a picture").
Definition fake_png : Response * World :=
  handleUploadMedia plain keep any_ext calm
                    (upload "fake.png" "image/png" (imaging.Raw "not a picture")) empty_world.

(** ** Examples on the library pieces *)

Example Ext_png : filepath.Ext "dir.d/Report.PNG" = ".PNG".
Proof. reflexivity. Qed.

Example Ext_none : filepath.Ext "a.b/noext" = "".
Proof. reflexivity. Qed.

Example ext_of_upload :
  strings.TrimPrefix (strings.ToLower plain (filepath.Ext "Cat.JpEg")) "." = "jpeg".
Proof. reflexivity. Qed.

Example Atoi_samples :
  strconv.Atoi "42" = (42, None) /\ strconv.Atoi "-7" = (-7, None) /\
  strconv.Atoi "" = (0, Some strconv.ErrSyntax) /\
  strconv.Atoi "abc" = (0, Some strconv.ErrSyntax) /\
  strconv.Atoi "99999999999999999999" = (strconv.maxInt, Some strconv.ErrRange).
Proof. repeat split; reflexivity. Qed.

(** ** Examples on the handlers *)

(** Scenario A: cat.png, 800x600. *)
Example scenario_A :
  thumb_of (fst one_cat) = Some "thumb_cat.png"
  /\ models.Meta (media_of (fst one_cat)) !! "width" = Some 800
  /\ models.Meta (media_of (fst one_cat)) !! "height" = Some 600
  /\ blob_data <$> blobs (after one_cat) !! "thumb_cat.png"
     = Some (imaging.Picture imaging.PNG 250 188).
Proof. vm_compute. repeat split. Qed.

(** Scenario B: cat.png again; both records coexist. *)
Example scenario_B :
  names (rows (after two_cats)) = ["cat.png"; "cat_012345.png"].
Proof. reflexivity. Qed.

(** Scenario D: the record is gone, both deletes were issued. *)
Example scenario_D :
  fst cat_deleted = JSON http.StatusOK (Flag true)
  /\ rows (after cat_deleted) = []
  /\ issued (after one_cat) (after cat_deleted)
     = [EvDeleteMedia 1 (Some "cat.png"); EvDelete "cat.png" true;
        EvDelete "thumb_cat.png" true]
  /\ blobs (after cat_deleted) = ∅.
Proof. vm_compute. repeat split. Qed.

(** The same deletion answers 200 when the blob deletes fail; the blobs stay. *)
Example delete_swallows_blob_errors :
  fst cat_half_deleted = JSON http.StatusOK (Flag true)
  /\ rows (after cat_half_deleted) = []
  /\ blobs (after cat_half_deleted) = blobs (after one_cat).
Proof. vm_compute. repeat split. Qed.

(** Cleanup is best effort: when the deletes of the cleanup fail as well, the
    caller still sees the insert's error and both blobs stay behind. *)
Example cleanup_is_best_effort :
  fst stuck_cat = Failed PersistenceFailure
  /\ issued empty_world (after stuck_cat)
     = [EvGetMedia 0 "cat.png" false;
        EvPut "cat.png" "image/png" (imaging.Picture imaging.PNG 800 600) (Some "cat.png");
        EvPut "thumb_cat.png" "image/png" (imaging.Picture imaging.PNG 250 188)
              (Some "thumb_cat.png");
        EvInsertMedia "cat.png" "thumb_cat.png" "image/png"
                      (<["width" := 800]> (<["height" := 600]> ∅)) "filesystem" false;
        EvDelete "cat.png" false; EvDelete "thumb_cat.png" false]
  /\ is_Some (blobs (after stuck_cat) !! "cat.png")
  /\ is_Some (blobs (after stuck_cat) !! "thumb_cat.png").
Proof. vm_compute. repeat split; eexists; reflexivity. Qed.

(** A filename with a non-ASCII letter takes the Unicode path of
    [strings.ToLower]: pic.GİF has the extension gif, passes the allowlist
    [gif] and gets a thumbnail. *)
Example non_ascii_extension :
  strings.isASCII "pic.GİF" = false
  /\ extOf lower_dotted_I (file_of "pic.GİF" "image/gif" (imaging.Picture imaging.GIF 64 64))
     = "gif"
  /\ thumb_of (fst dotted_gif) = Some "thumb_pic.GİF"
  /\ models.Meta (media_of (fst dotted_gif)) !! "width" = Some 64.
Proof. vm_compute. repeat split. Qed.

(** A listing request, and requests whose id does not parse. *)
Example listing_after_two_uploads :
  fst (handleGetMedia any_ext calm (with_id "abc") (after two_cats))
  = fst (handleGetMedia any_ext calm (with_id "") (after two_cats))
  /\ fst (handleGetMedia any_ext calm (with_id "-3") (after two_cats))
     = fst (handleGetMedia any_ext calm (with_id "") (after two_cats))
  /\ fst (handleGetMedia any_ext calm (with_id "2") (after two_cats))
     = JSON http.StatusOK (OneMedia (media_of (fst two_cats)))
  /\ fst (handleGetMedia any_ext calm (with_id "7") (after two_cats)) = Failed NotFound.
Proof. vm_compute. repeat split. Qed.

(** ** Facts on the library pieces *)


Lemma Atoi_empty : strconv.Atoi "" = (0, Some strconv.ErrSyntax).
Proof. reflexivity. Qed.

Lemma length_append (s1 s2 : string) :
  String.length (s1 +:+ s2) = (String.length s1 + String.length s2)%nat.
Proof. induction s1 as [|a s1 IH]; simpl; [reflexivity | by rewrite IH]. Qed.

Lemma length_substring (s : string) (n m : nat) :
  (n + m <= String.length s)%nat -> String.length (String.substring n m s) = m.
Proof.
  revert n m. induction s as [|a s IH]; intros [|n] [|m] Hle; cbn in *;
    try reflexivity; try lia; try (apply IH; lia).
  rewrite (IH 0%nat m); [reflexivity | lia].
Qed.

Lemma length_TrimSuffix (s suffix : string) :
  (String.length s <= String.length (strings.TrimSuffix s suffix) + String.length suffix)%nat.
Proof.
  unfold strings.TrimSuffix, strings.HasSuffix.
  destruct (_ && _) eqn:E; [|lia].
  apply andb_true_iff in E as [E _]. apply Nat.leb_le in E.
  rewrite length_substring; lia.
Qed.

Lemma appendSuffix_longer (filename suffix : string) :
  (String.length filename < String.length (appendSuffixToFilename filename suffix))%nat.
Proof.
  unfold appendSuffixToFilename. rewrite !length_append. cbn [String.length].
  pose proof (length_TrimSuffix filename (filepath.Ext filename)). lia.
Qed.

Lemma appendSuffix_differs (filename suffix : string) :
  appendSuffixToFilename filename suffix <> filename.
Proof.
  intros E. pose proof (appendSuffix_longer filename suffix) as L.
  rewrite E in L. lia.
Qed.

Lemma issued_app (w w' : World) (evs : list Event) :
  log w' = log w ++ evs -> issued w w' = evs.
Proof.
  intros E. unfold issued. rewrite E. apply drop_app_length.
Qed.

Lemma issued_refl (w : World) : issued w w = [].
Proof. apply issued_app. by rewrite app_nil_r. Qed.

(** ** Deletion *)

(** C8: [handleDeleteMedia] answers InvalidID for every id that is not
    positive and leaves the world as it was; when the metadata store deletes
    the record, the calls are, in this order, the metadata delete, the blob
    delete of the filename and the blob delete of "thumb_" + filename,
    whatever the record's thumbnail is, and the answer is the success
    response whether or not the blob deletes fail. *)
Theorem delete_media_by_id (app : App) (o : Oracle) (c : Context) (w : World) :
  let id := fst (strconv.Atoi (Param_id c)) in
  let r := handleDeleteMedia app o c w in
  (id <= 0 -> r = (Failed InvalidID, w))
  /\ (forall m : models.Media,
        0 < id -> delete_media_fails o = false ->
        List.find (by_id id) (rows w) = Some m ->
        let fname := models.Filename m in
        fst r = JSON http.StatusOK (Flag true)
        /\ issued w (snd r) =
             [EvDeleteMedia id (Some fname);
              EvDelete fname (negb (delete_fails o fname));
              EvDelete (thumbPrefix +:+ fname)
                       (negb (delete_fails o (thumbPrefix +:+ fname)))]
        /\ rows (snd r) = List.filter (fun x => negb (by_id id x)) (rows w)
        /\ List.find (by_id id) (rows (snd r)) = None).
Proof.
  intros id r. subst r. unfold handleDeleteMedia. fold id. split.
  - intros Hid. destruct (id <? 1) eqn:E; [reflexivity | lia].
  - intros m Hid Hdm Hfind. cbv zeta.
    destruct (id <? 1) eqn:E; [lia|].
    unfold DeleteMedia. rewrite Hdm, Hfind.
    set (fname := models.Filename m).
    unfold Delete; cbn.
    assert (Hgone : List.find (by_id id)
                      (List.filter (fun x => negb (by_id id x)) (rows w)) = None).
    { destruct (List.find (by_id id) (List.filter _ _)) as [x|] eqn:F; [|reflexivity].
      apply find_some in F as [Hx Hb]. apply filter_In in Hx as [_ Hx].
      rewrite Hb in Hx. discriminate. }
    destruct (delete_fails o fname), (delete_fails o (thumbPrefix +:+ fname));
      cbn; (split; [reflexivity|]); (split; [|by split]);
      apply issued_app; cbn; by rewrite <- !app_assoc.
Qed.

(** ** Retrieval *)


(** ** Uploads: running the handler on symbolic inputs *)

Ltac unfold_upload :=
  unfold handleUploadMedia, resolveName, afterPut, makeThumbnail, deferred,
         GetMedia, InsertMedia, Put, Delete, Open,
         mbind, mret, M_bind, M_ret, bind, ret, fail, orFail in *.

(** Follow every branch of the handler; the impossible ones go away. *)
Ltac run_upload := unfold_upload; simplify_eq; repeat (case_match; simplify_eq).

(** Turn [issued w w'] on an explicit [w'] into the list of its events. *)
Ltac read_log :=
  erewrite issued_app by (cbn; rewrite <- ?app_assoc; reflexivity); cbn [app].

Lemma inArray_vector (ext : string) :
  inArray ext vectorExts = true -> ext = "svg".
Proof.
  unfold inArray, vectorExts. cbn [existsb]. rewrite orb_false_r.
  apply String.eqb_eq.
Qed.

Lemma vector_not_image (ext : string) :
  inArray ext vectorExts = true -> inArray ext imageExts = false.
Proof. intros ->%inArray_vector. reflexivity. Qed.

Lemma Dx_at_origin (w h : Z) : image.Dx (image.Rect 0 0 w h) = w.
Proof. unfold image.Dx. cbn. apply Z.sub_0_r. Qed.

Lemma Dy_at_origin (w h : Z) : image.Dy (image.Rect 0 0 w h) = h.
Proof. unfold image.Dy. cbn. apply Z.sub_0_r. Qed.

Lemma processImage_eval (o : Oracle) (file : multipart.FileHeader)
    (f : imaging.Format) (r : image.Rectangle) :
  multipart.Body file = imaging.Pixels f r ->
  open_fails o 1 = false -> encode_fails o = false ->
  processImage o file =
    Ok (imaging.Picture imaging.PNG thumbnailSize
                        (imaging.round_div (thumbnailSize * image.Dy r) (image.Dx r)),
        image.X (image.Max r), image.Y (image.Max r)).
Proof.
  intros Hb Ho He. unfold processImage, Open. rewrite Ho, Hb. cbn.
  rewrite He. cbn. by rewrite Dx_at_origin, Dy_at_origin.
Qed.

Lemma processImage_inv (o : Oracle) (file : multipart.FileHeader)
    (out : imaging.Content) (W H : Z) :
  processImage o file = Ok (out, W, H) ->
  exists f r, multipart.Body file = imaging.Pixels f r
              /\ W = image.X (image.Max r) /\ H = image.Y (image.Max r)
              /\ out = imaging.Picture imaging.PNG thumbnailSize
                          (imaging.round_div (thumbnailSize * image.Dy r) (image.Dx r)).
Proof.
  unfold processImage, Open. intros E.
  destruct (open_fails o 1); [discriminate|].
  destruct (multipart.Body file) as [f r|]; cbn in E; [|discriminate].
  destruct (encode_fails o); cbn in E; [discriminate|].
  injection E as <- <- <-. exists f, r. repeat split.
  by rewrite Dx_at_origin, Dy_at_origin.
Qed.

(** ** Uploads: the extension check *)

(** C7: with an allowlist that holds neither the wildcard nor the file's
    lowercased extension, the upload of a readable file fails with
    UnsupportedType and the world (blobs, records, calls) is as before. *)
Theorem upload_rejects_unlisted_extension
    (mapLower makeFilename : string -> string) (app : App) (o : Oracle) (c : Context)
    (w : World) (file : multipart.FileHeader) :
  FormFile c = Some file ->
  open_fails o 0 = false ->
  inArray "*" (Extensions app) = false ->
  inArray (extOf mapLower file) (Extensions app) = false ->
  handleUploadMedia mapLower makeFilename app o c w = (Failed (UnsupportedType (extOf mapLower file)), w).
Proof.
  intros Hf Ho Hs He. unfold handleUploadMedia, Open.
  rewrite Hf, Ho. fold (extOf mapLower file). by rewrite Hs, He.
Qed.

(** ** Uploads: thumbnails and metadata *)

(** C6: an upload with a vector extension that succeeds yields a record
    whose thumbnail name is its filename, and the handler issues exactly one
    blob put. *)
Theorem vector_upload_reuses_original
    (mapLower makeFilename : string -> string) (app : App) (o : Oracle) (c : Context)
    (w w' : World) (file : multipart.FileHeader) (m : models.Media) :
  FormFile c = Some file ->
  inArray (extOf mapLower file) vectorExts = true ->
  handleUploadMedia mapLower makeFilename app o c w = (JSON http.StatusOK (OneMedia m), w') ->
  models.Thumb m = models.Filename m
  /\ length (List.filter is_Put (issued w w')) = 1%nat
  /\ blobs w' = <[models.Filename m :=
                    {| blob_contentType := multipart.Header_ContentType file;
                       blob_data := multipart.Body file |}]> (blobs w).
Proof.
  intros Hf Hv H. pose proof (vector_not_image _ Hv) as Hi.
  unfold handleUploadMedia in H. rewrite Hf in H. fold (extOf mapLower file) in H.
  unfold afterPut in H. rewrite Hv, Hi in H.
  run_upload; cbn; (split; [reflexivity|]); (split; [|reflexivity]);
    read_log; reflexivity.
Qed.

(** X15: after a successful upload with a raster extension the record's
    metadata map holds, under width and height, the coordinates of the
    lower right corner of the decoded picture's bounds ([Bounds().Max]);
    these are the picture's own width and height when its bounds start at
    the origin.  With any other extension the map is empty. *)
Theorem metadata_records_bounds_corner
    (mapLower makeFilename : string -> string) (app : App) (o : Oracle) (c : Context)
    (w w' : World) (file : multipart.FileHeader) (m : models.Media) :
  FormFile c = Some file ->
  handleUploadMedia mapLower makeFilename app o c w = (JSON http.StatusOK (OneMedia m), w') ->
  if inArray (extOf mapLower file) imageExts
  then exists f r,
         multipart.Body file = imaging.Pixels f r
         /\ models.Meta m = <["width" := image.X (image.Max r)]>
                              (<["height" := image.Y (image.Max r)]> ∅)
         /\ (image.Min r = {| image.X := 0; image.Y := 0 |} ->
             models.Meta m !! "width" = Some (image.Dx r)
             /\ models.Meta m !! "height" = Some (image.Dy r))
  else models.Meta m = ∅.
Proof.
  intros Hf H.
  unfold handleUploadMedia in H. rewrite Hf in H. fold (extOf mapLower file) in H.
  unfold afterPut in H.
  destruct (inArray (extOf mapLower file) imageExts) eqn:Hi.
  - unfold makeThumbnail in H.
    destruct (processImage o file) as [[[out W] H0]|] eqn:Hp.
    + apply processImage_inv in Hp as (f & r & Hb & -> & -> & _).
      run_upload; exists f, r; cbn; (split; [exact Hb|]); (split; [done|]);
        intros Hmin; unfold image.Dx, image.Dy; rewrite Hmin; cbn;
        by rewrite !Z.sub_0_r.
    + run_upload.
  - run_upload; reflexivity.
Qed.

Lemma image_not_vector (ext : string) :
  inArray ext imageExts = true -> inArray ext vectorExts = false.
Proof.
  intros Hi. destruct (inArray ext vectorExts) eqn:Hv; [|reflexivity].
  apply vector_not_image in Hv. congruence.
Qed.

Lemma thumb_key_nonempty (name : string) : thumbPrefix +:+ name <> "".
Proof. discriminate. Qed.

Lemma appendSuffix_nonempty (filename suffix : string) :
  appendSuffixToFilename filename suffix <> "".
Proof.
  intros E. pose proof (appendSuffix_longer filename suffix) as L.
  rewrite E in L. cbn in L. lia.
Qed.

Lemma vector_name_nonempty (mapLower : string -> string) (file : multipart.FileHeader) :
  inArray (extOf mapLower file) vectorExts = true -> multipart.Filename file <> "".
Proof.
  intros Hv E. unfold extOf in Hv. rewrite E in Hv. discriminate.
Qed.

(** C4, as amended: when neither the store nor the sanitizer turns a
    non-empty name into the empty one, the record of a successful upload
    has a thumbnail name exactly when the lowercased extension of the
    client's filename is a raster or a vector extension; the declared
    content type plays no part. *)
Theorem thumbnail_set_iff_image_extension
    (mapLower makeFilename : string -> string) (app : App) (o : Oracle) (c : Context)
    (w w' : World) (file : multipart.FileHeader) (m : models.Media) :
  FormFile c = Some file ->
  (forall k, k <> "" -> stored_as o k <> "") ->
  (forall n, n <> "" -> makeFilename n <> "") ->
  handleUploadMedia mapLower makeFilename app o c w = (JSON http.StatusOK (OneMedia m), w') ->
  models.Thumb m <> "" <->
  inArray (extOf mapLower file) imageExts || inArray (extOf mapLower file) vectorExts = true.
Proof.
  intros Hf Hk Hn H.
  unfold handleUploadMedia in H. rewrite Hf in H. fold (extOf mapLower file) in H.
  unfold afterPut in H.
  destruct (inArray (extOf mapLower file) imageExts) eqn:Hi.
  - rewrite (image_not_vector _ Hi) in *. cbn [orb].
    run_upload; cbn; split; try done; intros _; apply Hk, thumb_key_nonempty.
  - destruct (inArray (extOf mapLower file) vectorExts) eqn:Hv; cbn [orb].
    + pose proof (Hn _ (vector_name_nonempty _ _ Hv)) as Hne.
      run_upload; cbn; split; try done; intros _; apply Hk;
        first [exact Hne | apply appendSuffix_nonempty].
    + run_upload; cbn; split; done.
Qed.

(** C10: after a successful upload with a raster extension, the thumbnail
    put was issued with the key "thumb_" + the original's stored name and
    with the content type the client declared; the record's thumbnail name
    is the key the store returned for it, and the blob under that name
    carries the declared content type while its bytes are a PNG of the
    thumbnail's size, whatever the format of the upload. *)
Theorem thumbnail_blob_keeps_declared_type
    (mapLower makeFilename : string -> string) (app : App) (o : Oracle) (c : Context)
    (w w' : World) (file : multipart.FileHeader) (m : models.Media) :
  FormFile c = Some file ->
  inArray (extOf mapLower file) imageExts = true ->
  handleUploadMedia mapLower makeFilename app o c w = (JSON http.StatusOK (OneMedia m), w') ->
  exists f r,
    let png := imaging.Picture imaging.PNG thumbnailSize
                 (imaging.round_div (thumbnailSize * image.Dy r) (image.Dx r)) in
    multipart.Body file = imaging.Pixels f r
    /\ In (EvPut (thumbPrefix +:+ models.Filename m)
                 (multipart.Header_ContentType file) png (Some (models.Thumb m)))
          (issued w w')
    /\ models.Thumb m = stored_as o (thumbPrefix +:+ models.Filename m)
    /\ blobs w' !! models.Thumb m =
         Some {| blob_contentType := multipart.Header_ContentType file;
                 blob_data := png |}
    /\ models.ContentType m = multipart.Header_ContentType file.
Proof.
  intros Hf Hi H.
  unfold handleUploadMedia in H. rewrite Hf in H. fold (extOf mapLower file) in H.
  unfold afterPut in H. rewrite Hi, (image_not_vector _ Hi) in H.
  unfold makeThumbnail in H.
  destruct (processImage o file) as [[[out W] H0]|] eqn:Hp; [|run_upload].
  apply processImage_inv in Hp as (f & r & Hb & _ & _ & ->).
  run_upload; exists f, r; cbn; (split; [exact Hb|]);
    (split; [read_log; cbn; tauto|]); (split; [reflexivity|]);
    (split; [apply lookup_insert_eq | reflexivity]).
Qed.

(** ** Uploads: cleanup after a failure *)

(** C1: when an upload fails after a blob put has succeeded (the store
    returning no empty key for a non-empty one), then for every key a put of
    this request stored under, the handler has issued a delete before it
    returns, and the key holds no blob once that delete takes effect; the
    error returned is the one of the step that failed, and no record was
    added. *)
Theorem failed_upload_leaves_no_blob
    (mapLower makeFilename : string -> string) (app : App) (o : Oracle) (c : Context)
    (w w' : World) (e : error) :
  handleUploadMedia mapLower makeFilename app o c w = (Failed e, w') ->
  (forall k, k <> "" -> stored_as o k <> "") ->
  forall key contentType data k,
    In (EvPut key contentType data (Some k)) (issued w w') ->
    In (EvDelete k (negb (delete_fails o k))) (issued w w')
    /\ (delete_fails o k = false -> blobs w' !! k = None)
    /\ later_step_error e
    /\ rows w' = rows w.
Proof.
  intros H Hk key ct data k.
  unfold handleUploadMedia in H.
  destruct (FormFile c) as [file|]; [|run_upload; rewrite issued_refl; intros []].
  fold (extOf mapLower file) in H. unfold afterPut, makeThumbnail in H.
  destruct (inArray (extOf mapLower file) imageExts) eqn:Hi;
    [rewrite (image_not_vector _ Hi) in H|];
    destruct (processImage o file) as [[[out W] H0]|] eqn:Hp;
    run_upload;
    try (rewrite issued_refl; intros []);
    try match goal with
        | E : String.eqb ?s "" = true |- _ =>
            apply String.eqb_eq in E;
            try (by apply Hk in E; [|apply thumb_key_nonempty])
        end;
    cbn [cleanUp thumbfName] in *;
    read_log; cbn [In];
    intros HIn; repeat (destruct HIn as [HIn | HIn]; simplify_eq); try contradiction;
    cbn; unfold later_step_error;
    (split;
     [repeat match goal with
             | E : delete_fails _ _ = _ |- _ => rewrite E; clear E
             end; cbn; tauto |]);
    (split;
     [intros Hgone;
      first [congruence
            | rewrite ?lookup_delete; repeat case_decide; done || congruence] |]);
    (split; [|reflexivity]);
    first [by right; left; exists StorageFailure | eauto].
Qed.

(** ** Uploads: name collisions *)

Lemma length_string_of_list_ascii (l : list ascii) :
  String.length (string_of_list_ascii l) = length l.
Proof. induction l as [|a l IH]; cbn; [reflexivity | by rewrite IH]. Qed.

Lemma alnum_alphanumeric (i : nat) : alphanumeric (alnum i) = true.
Proof.
  unfold alnum.
  assert (All : Forall (fun ch => alphanumeric ch = true) (list_ascii_of_string dictionary)).
  { repeat constructor. }
  rewrite List.Forall_forall in All. apply All, nth_In.
  change (length (list_ascii_of_string dictionary)) with 62%nat.
  apply Nat.mod_upper_bound. discriminate.
Qed.

Lemma generateRandomString_ok (o : Oracle) (n : nat) (s : string) :
  generateRandomString o n = Ok s ->
  String.length s = n
  /\ Forall (fun ch => alphanumeric ch = true) (list_ascii_of_string s).
Proof.
  unfold generateRandomString. destruct (rand_read o) as [bytes|]; [|discriminate].
  intros [= <-]. split.
  - by rewrite length_string_of_list_ascii, length_map, length_seq.
  - rewrite list_ascii_of_string_of_list_ascii. apply List.Forall_map, List.Forall_forall.
    intros k _. apply alnum_alphanumeric.
Qed.

Lemma find_by_name (fileName : string) (rs : list models.Media) :
  In fileName (names rs) -> exists m, List.find (by_name fileName) rs = Some m.
Proof.
  induction rs as [|r rs IH]; cbn; [intros []|].
  intros [E | HIn].
  - exists r. unfold by_name. by rewrite E, String.eqb_refl.
  - destruct (by_name fileName r); eauto.
Qed.

(** C2, as amended: when the lookup works and the sanitized filename is
    that of a record, the handler draws one suffix of 6 alphanumeric
    characters and goes on with the name that has it before the extension;
    this name differs from the sanitized one; the lookup by name is the only
    one of the request (the new name is not looked up); the record's
    filename is what the store returns for the new name, and it is distinct
    from every filename recorded before whenever the store keeps the key and
    the new name is not itself recorded already. *)
Theorem colliding_name_gets_one_random_suffix
    (mapLower makeFilename : string -> string) (app : App) (o : Oracle) (c : Context)
    (w w' : World) (file : multipart.FileHeader) (m : models.Media) :
  FormFile c = Some file ->
  get_fails o = false ->
  In (makeFilename (multipart.Filename file)) (names (rows w)) ->
  handleUploadMedia mapLower makeFilename app o c w = (JSON http.StatusOK (OneMedia m), w') ->
  exists suffix,
    let fName := makeFilename (multipart.Filename file) in
    let candidate := appendSuffixToFilename fName suffix in
    generateRandomString o 6 = Ok suffix
    /\ String.length suffix = 6%nat
    /\ Forall (fun ch => alphanumeric ch = true) (list_ascii_of_string suffix)
    /\ candidate <> fName
    /\ List.filter is_GetMedia (issued w w') = [EvGetMedia 0 fName true]
    /\ models.Filename m = stored_as o candidate
    /\ rows w' = rows w ++ [m]
    /\ (stored_as o candidate = candidate ->
        ~ In candidate (names (rows w)) ->
        ~ In (models.Filename m) (names (rows w))).
Proof.
  intros Hf Hg HIn H. apply find_by_name in HIn as [m0 Hfind].
  unfold handleUploadMedia in H. rewrite Hf in H. fold (extOf mapLower file) in H.
  unfold afterPut, makeThumbnail in H.
  destruct (inArray (extOf mapLower file) imageExts) eqn:Hi;
    destruct (inArray (extOf mapLower file) vectorExts) eqn:Hv;
    unfold resolveName, GetMedia in H; rewrite Hg in H;
    cbn [Z.ltb Z.compare] in H; rewrite Hfind in H;
    (destruct (generateRandomString o 6) as [suffix|] eqn:Hs; [|run_upload]).
  all: destruct (generateRandomString_ok _ _ _ Hs) as [Hlen Hall].
  all: exists suffix; cbv zeta.
  all: split; [reflexivity|]; split; [exact Hlen|]; split; [exact Hall|].
  all: split; [apply appendSuffix_differs|].
  all: destruct (processImage o file) as [[[out W] H0]|];
    run_upload; cbn;
    (split; [read_log; reflexivity|]); (split; [reflexivity|]);
    (split; [reflexivity|]); by intros ->.
Qed.

(** ** The thumbnail *)

Lemma round_div_near (a b : Z) :
  0 < b -> Z.abs (2 * (b * imaging.round_div a b - a)) <= b.
Proof.
  intros Hb. unfold imaging.round_div.
  pose proof (Z.div_mod (2 * a + b) (2 * b)) as D.
  pose proof (Z.mod_pos_bound (2 * a + b) (2 * b)) as B.
  lia.
Qed.

Lemma round_div_pos (a b : Z) :
  0 < b -> b <= 2 * a -> 1 <= imaging.round_div a b.
Proof.
  intros Hb Ha. unfold imaging.round_div.
  apply Z.div_le_lower_bound; lia.
Qed.

(** C3, as amended: for a picture of width W >= 1 and height H >= 1 that is
    no wider than 2 * 250 * H, [processImage] returns a PNG whose width is
    the target width 250 whatever W is, and whose height is
    round(250 * H / W): at least 1 and within half a pixel of the exact
    proportion.  W and H are the sides of the picture's bounds. *)
Theorem thumbnail_has_target_width
    (o : Oracle) (file : multipart.FileHeader) (f : imaging.Format) (r : image.Rectangle) :
  let W := image.Dx r in
  let H := image.Dy r in
  multipart.Body file = imaging.Pixels f r ->
  1 <= W -> 1 <= H -> W <= 2 * thumbnailSize * H ->
  open_fails o 1 = false -> encode_fails o = false ->
  exists h,
    processImage o file
    = Ok (imaging.Picture imaging.PNG thumbnailSize h,
          image.X (image.Max r), image.Y (image.Max r))
    /\ h = imaging.round_div (thumbnailSize * H) W
    /\ 1 <= h
    /\ Z.abs (2 * (W * h - thumbnailSize * H)) <= W.
Proof.
  intros W H Hb HW HH Hwide Ho He.
  exists (imaging.round_div (thumbnailSize * H) W).
  split; [by apply (processImage_eval o file f)|].
  split; [reflexivity|].
  split; [apply round_div_pos; lia | apply round_div_near; lia].
Qed.

(** ** Concrete runs *)

(** C3 fails as stated: a picture 100 wide gets a thumbnail 250 wide, not
    min(250, 100) = 100 wide. *)
Lemma narrow_picture_is_enlarged :
  processImage calm (file_of "icon.png" "image/png" (imaging.Picture imaging.PNG 100 80))
    = Ok (imaging.Picture imaging.PNG 250 200, 100, 80)
  /\ 250 <> Z.min thumbnailSize 100.
Proof. split; [reflexivity | discriminate]. Qed.

(** C5 at a GIF frame placed off the origin: the upload succeeds, the
    picture is 20 wide and 20 high, and the recorded width and height are
    30 and 30, the corner of its bounds. *)
Lemma offset_frame_is_recorded_by_its_corner :
  image.Dx offset_frame = 20 /\ image.Dy offset_frame = 20
  /\ (exists code m, fst one_frame = JSON code (OneMedia m))
  /\ models.Meta (media_of (fst one_frame)) !! "width" = Some 30
  /\ models.Meta (media_of (fst one_frame)) !! "height" = Some 30.
Proof.
  split; [reflexivity|]. split; [reflexivity|].
  split; [by eexists _, _|]. split; reflexivity.
Qed.

(** C4 fails as stated: two uploads declare the same content type and carry
    the same bytes; the one named photo.png gets a thumbnail name, the one
    named photo.bin gets none. *)
Lemma thumbnail_follows_extension_not_content_type :
  let body := imaging.Picture imaging.PNG 800 600 in
  let a := handleUploadMedia plain keep any_ext calm (upload "photo.png" "image/png" body) empty_world in
  let b := handleUploadMedia plain keep any_ext calm (upload "photo.bin" "image/png" body) empty_world in
  contentType_of (fst a) = Some "image/png"
  /\ contentType_of (fst b) = Some "image/png"
  /\ thumb_of (fst a) = Some "thumb_photo.png"
  /\ thumb_of (fst b) = Some "".
Proof. vm_compute. repeat split. Qed.

(** C2 fails as stated: the third upload of cat.png draws the suffix the
    second one drew; the handler looks up cat.png only, never the suffixed
    name, and a second record with the filename cat_012345.png is stored. *)
Lemma repeated_suffix_repeats_filename :
  names (rows (after three_cats)) = ["cat.png"; "cat_012345.png"; "cat_012345.png"]
  /\ List.filter is_GetMedia (issued (after two_cats) (after three_cats))
       = [EvGetMedia 0 "cat.png" true]
  /\ In (models.Filename (media_of (fst three_cats))) (names (rows (after two_cats))).
Proof. vm_compute. repeat split. right; left; reflexivity. Qed.

(** The cleanup theorem at the upload of cat.png with a refused insert. *)
Lemma failed_upload_leaves_no_blob_witness :
  fst lost_cat = Failed PersistenceFailure
  /\ blobs (after lost_cat) !! "cat.png" = None
  /\ blobs (after lost_cat) !! "thumb_cat.png" = None
  /\ rows (after lost_cat) = [].
Proof.
  assert (Hrun : handleUploadMedia plain keep any_ext (with_insert_failing calm) cat_png empty_world
                 = (Failed PersistenceFailure, after lost_cat)) by reflexivity.
  assert (Hkey : forall k, k <> "" -> stored_as (with_insert_failing calm) k <> "")
    by (intros k Hk; exact Hk).
  split; [reflexivity|].
  split.
  - apply (failed_upload_leaves_no_blob plain keep any_ext _ cat_png empty_world _ _ Hrun Hkey
             "cat.png" "image/png" (imaging.Picture imaging.PNG 800 600) "cat.png");
      [vm_compute; tauto | reflexivity].
  - split; [|reflexivity].
    apply (failed_upload_leaves_no_blob plain keep any_ext _ cat_png empty_world _ _ Hrun Hkey
             "thumb_cat.png" "image/png" (imaging.Picture imaging.PNG 250 188) "thumb_cat.png");
      [vm_compute; tauto | reflexivity].
Defined.

(** The collision theorem at the second upload of cat.png. *)
Lemma colliding_name_gets_one_random_suffix_witness :
  In (keep "cat.png") (names (rows (after one_cat)))
  /\ exists suffix,
       generateRandomString calm 6 = Ok suffix
       /\ String.length suffix = 6%nat
       /\ models.Filename (media_of (fst two_cats))
          = stored_as calm (appendSuffixToFilename (keep "cat.png") suffix).
Proof.
  assert (HIn : In (keep "cat.png") (names (rows (after one_cat)))) by (left; reflexivity).
  split; [exact HIn|].
  destruct (colliding_name_gets_one_random_suffix plain keep any_ext calm cat_png
              (after one_cat) (after two_cats) cat_file (media_of (fst two_cats))
              eq_refl eq_refl HIn eq_refl)
    as (suffix & Hs & Hlen & _ & _ & _ & Hname & _).
  exists suffix. repeat split; assumption.
Defined.

(** The thumbnail theorem at an 800x600 picture. *)
Lemma thumbnail_has_target_width_witness :
  exists h,
    processImage calm cat_file = Ok (imaging.Picture imaging.PNG thumbnailSize h, 800, 600)
    /\ h = imaging.round_div (thumbnailSize * 600) 800
    /\ 1 <= h
    /\ Z.abs (2 * (800 * h - thumbnailSize * 600)) <= 800.
Proof.
  apply (thumbnail_has_target_width calm cat_file imaging.PNG (image.Rect 0 0 800 600));
    first [reflexivity | vm_compute; discriminate].
Defined.

(** The thumbnail-name theorem at scenario A. *)
Lemma thumbnail_set_iff_image_extension_witness :
  models.Thumb (media_of (fst one_cat)) <> "" <->
  inArray (extOf plain cat_file) imageExts || inArray (extOf plain cat_file) vectorExts = true.
Proof.
  apply (thumbnail_set_iff_image_extension plain keep any_ext calm cat_png
           empty_world (after one_cat) cat_file).
  - reflexivity.
  - intros k Hk. exact Hk.
  - intros n Hn. exact Hn.
  - reflexivity.
Defined.

(** X15 at scenario A. *)
Lemma metadata_records_bounds_corner_witness :
  exists f r,
    multipart.Body cat_file = imaging.Pixels f r
    /\ models.Meta (media_of (fst one_cat))
       = <["width" := image.X (image.Max r)]> (<["height" := image.Y (image.Max r)]> ∅)
    /\ (image.Min r = {| image.X := 0; image.Y := 0 |} ->
        models.Meta (media_of (fst one_cat)) !! "width" = Some (image.Dx r)
        /\ models.Meta (media_of (fst one_cat)) !! "height" = Some (image.Dy r)).
Proof.
  exact (metadata_records_bounds_corner plain keep any_ext calm cat_png
           empty_world (after one_cat) cat_file (media_of (fst one_cat))
           eq_refl eq_refl).
Defined.

(** The vector theorem at the upload of logo.svg. *)
Lemma vector_upload_reuses_original_witness :
  models.Thumb (media_of (fst one_logo)) = models.Filename (media_of (fst one_logo))
  /\ length (List.filter is_Put (issued empty_world (after one_logo))) = 1%nat
  /\ blobs (after one_logo)
     = <[models.Filename (media_of (fst one_logo)) :=
           {| blob_contentType := multipart.Header_ContentType logo_file;
              blob_data := multipart.Body logo_file |}]> (blobs empty_world).
Proof.
  apply (vector_upload_reuses_original plain keep any_ext calm
           (upload "logo.svg" "image/svg+xml" (imaging.Raw "<svg/>"))
           empty_world (after one_logo) logo_file (media_of (fst one_logo)));
    reflexivity.
Defined.

(** Scenario C: notes.pdf against the allowlist png, jpg. *)
Lemma upload_rejects_unlisted_extension_witness :
  handleUploadMedia plain keep png_jpg calm
                    (upload "notes.pdf" "application/pdf" (imaging.Raw "%PDF-1.7"))
                    empty_world
  = (Failed (UnsupportedType (extOf plain notes_file)), empty_world).
Proof.
  apply (upload_rejects_unlisted_extension plain keep png_jpg calm _ empty_world notes_file);
    reflexivity.
Defined.

(** A JPEG upload: its thumbnail blob is labelled image/jpeg and holds a PNG. *)
Lemma thumbnail_blob_keeps_declared_type_witness :
  models.Thumb (media_of (fst one_jpeg)) = "thumb_photo.JPG"
  /\ blobs (after one_jpeg) !! "thumb_photo.JPG"
     = Some {| blob_contentType := "image/jpeg";
               blob_data := imaging.Picture imaging.PNG 250 188 |}.
Proof.
  destruct (thumbnail_blob_keeps_declared_type plain keep any_ext calm
              (upload "photo.JPG" "image/jpeg" (imaging.Picture imaging.JPEG 640 480))
              empty_world (after one_jpeg) jpeg_file (media_of (fst one_jpeg))
              eq_refl eq_refl eq_refl)
    as (f & r & Hb & _ & Hthumb & Hblob & _).
  cbn in Hb. injection Hb as <- <-.
  split; [exact Hthumb | exact Hblob].
Defined.

(** The deletion theorem at the ids "0" and "1" after scenario A. *)
Lemma delete_media_by_id_witness :
  handleDeleteMedia any_ext calm (with_id "0") (after one_cat)
    = (Failed InvalidID, after one_cat)
  /\ fst cat_deleted = JSON http.StatusOK (Flag true)
  /\ issued (after one_cat) (after cat_deleted)
     = [EvDeleteMedia 1 (Some "cat.png"); EvDelete "cat.png" true;
        EvDelete "thumb_cat.png" true].
Proof.
  destruct (delete_media_by_id any_ext calm (with_id "0") (after one_cat)) as [Hbad _].
  destruct (delete_media_by_id any_ext calm (with_id "1") (after one_cat)) as [_ Hgood].
  split.
  - apply Hbad. vm_compute. discriminate.
  - destruct (Hgood (media_of (fst one_cat))) as (Hresp & Hcalls & _).
    + vm_compute. reflexivity.
    + reflexivity.
    + reflexivity.
    + split; [exact Hresp | exact Hcalls].
Defined.


(** * Further properties of the handlers *)

Ltac read_log_in H :=
  erewrite issued_app in H by (cbn; rewrite <- ?app_assoc; reflexivity); cbn in H.

(** Case analysis on the two extension tests; a raster extension is never a
    vector one. *)
Ltac split_ext H mapLower file :=
  let Hi := fresh "Hi" in
  let Hv := fresh "Hv" in
  destruct (inArray (extOf mapLower file) imageExts) eqn:Hi;
  [rewrite ?(image_not_vector _ Hi) in H
  |destruct (inArray (extOf mapLower file) vectorExts) eqn:Hv].

(** ** Uploads: what a failure leaves behind *)

(** X1: an upload that fails, at whatever step, adds no record: the rows of
    the metadata store and the next id are what they were. *)
Theorem failed_upload_adds_no_record
    (mapLower makeFilename : string -> string) (app : App) (o : Oracle) (c : Context)
    (w w' : World) (e : error) :
  handleUploadMedia mapLower makeFilename app o c w = (Failed e, w') ->
  rows w' = rows w /\ next_id w' = next_id w.
Proof.
  intros H. unfold handleUploadMedia in H.
  destruct (FormFile c) as [file|]; [|by run_upload].
  fold (extOf mapLower file) in H. unfold afterPut, makeThumbnail in H.
  split_ext H mapLower file;
    destruct (processImage o file) as [[[out W] H0]|];
    run_upload; by cbn.
Qed.

(** X2: an upload none of whose puts stored a blob has failed, has issued no
    delete, and has changed neither the blobs nor the records. *)
Theorem upload_without_stored_blob_changes_nothing
    (mapLower makeFilename : string -> string) (app : App) (o : Oracle) (c : Context)
    (w w' : World) (resp : Response) :
  handleUploadMedia mapLower makeFilename app o c w = (resp, w') ->
  stored_keys (issued w w') = [] ->
  (exists e, resp = Failed e)
  /\ List.filter is_Delete (issued w w') = []
  /\ blobs w' = blobs w
  /\ rows w' = rows w.
Proof.
  intros H Hnone. unfold handleUploadMedia in H.
  destruct (FormFile c) as [file|];
    [|run_upload; rewrite issued_refl; eauto].
  fold (extOf mapLower file) in H. unfold afterPut, makeThumbnail in H.
  split_ext H mapLower file;
    destruct (processImage o file) as [[[out W] H0]|];
    run_upload;
    try (rewrite issued_refl; by eauto);
    try (read_log_in Hnone; discriminate);
    read_log; cbn; eauto.
Qed.

Lemma stored_after_two_puts (b : gmap string Blob) (k1 k2 k : string) (v1 v2 : Blob) :
  k = k1 \/ k = k2 -> is_Some (<[k2 := v2]> (<[k1 := v1]> b) !! k).
Proof.
  intros Hcase. rewrite !lookup_insert. repeat case_decide; try by eexists.
  destruct Hcase; congruence.
Qed.

Lemma stored_after_put (b : gmap string Blob) (k : string) (v : Blob) :
  is_Some (<[k := v]> b !! k).
Proof. rewrite lookup_insert_eq. by eexists. Qed.

(** X3: a successful upload answers 200 with one record, which is the one
    row added to the metadata store; the record has the id the store
    assigned, the content type the client declared and the configured
    provider; no delete was issued; a blob exists under the record's
    filename and, when the record names a thumbnail, under that name. *)
Theorem successful_upload_record
    (mapLower makeFilename : string -> string) (app : App) (o : Oracle) (c : Context)
    (w w' : World) (file : multipart.FileHeader) (code : Z) (body : Data) :
  FormFile c = Some file ->
  handleUploadMedia mapLower makeFilename app o c w = (JSON code body, w') ->
  exists m,
    body = OneMedia m /\ code = http.StatusOK
    /\ rows w' = rows w ++ [m]
    /\ models.ID m = next_id w
    /\ models.ContentType m = multipart.Header_ContentType file
    /\ models.Provider m = MediaProvider app
    /\ List.filter is_Delete (issued w w') = []
    /\ is_Some (blobs w' !! models.Filename m)
    /\ (models.Thumb m <> "" -> is_Some (blobs w' !! models.Thumb m)).
Proof.
  intros Hf H. unfold handleUploadMedia in H. rewrite Hf in H.
  fold (extOf mapLower file) in H. unfold afterPut, makeThumbnail in H.
  split_ext H mapLower file;
    destruct (processImage o file) as [[[out W] H0]|];
    run_upload; eexists;
    (split; [reflexivity|]); cbn;
    (split; [reflexivity|]); (split; [reflexivity|]);
    (split; [reflexivity|]); (split; [reflexivity|]); (split; [reflexivity|]);
    (split; [read_log; reflexivity|]);
    (split; [first [apply stored_after_put | apply stored_after_two_puts; tauto]|]);
    intros Hth; try congruence;
    first [apply stored_after_put | apply stored_after_two_puts; tauto].
Qed.

(** ** Uploads: the name check *)

Lemma find_by_name_none (fileName : string) (rs : list models.Media) :
  ~ In fileName (names rs) -> List.find (by_name fileName) rs = None.
Proof.
  intros Hnot. destruct (List.find (by_name fileName) rs) as [m|] eqn:F; [|reflexivity].
  apply find_some in F as [HIn Hb]. unfold by_name in Hb.
  apply String.eqb_eq in Hb. exfalso. apply Hnot. rewrite <- Hb.
  by apply in_map.
Qed.

(** X4: when the lookup by filename fails, or finds no record with the
    sanitized filename, a successful upload keeps the sanitized name (its
    record's filename is what the store returns for it) and that lookup is
    the request's only one; a lookup that fails counts as "name is free",
    whatever the records are. *)
Theorem free_name_is_kept
    (mapLower makeFilename : string -> string) (app : App) (o : Oracle) (c : Context)
    (w w' : World) (file : multipart.FileHeader) (m : models.Media) :
  FormFile c = Some file ->
  get_fails o = true \/ ~ In (makeFilename (multipart.Filename file)) (names (rows w)) ->
  handleUploadMedia mapLower makeFilename app o c w = (JSON http.StatusOK (OneMedia m), w') ->
  models.Filename m = stored_as o (makeFilename (multipart.Filename file))
  /\ List.filter is_GetMedia (issued w w')
     = [EvGetMedia 0 (makeFilename (multipart.Filename file)) false].
Proof.
  intros Hf Hfree H. unfold handleUploadMedia in H. rewrite Hf in H.
  fold (extOf mapLower file) in H. unfold afterPut, makeThumbnail in H.
  assert (Hlook : resolveName o (makeFilename (multipart.Filename file)) w
                  = (Ok (makeFilename (multipart.Filename file)),
                     emit (EvGetMedia 0 (makeFilename (multipart.Filename file)) false) w)).
  { unfold resolveName, GetMedia. destruct Hfree as [Hg | Hnot].
    - by rewrite Hg.
    - destruct (get_fails o); [reflexivity|].
      cbn [Z.ltb Z.compare]. by rewrite (find_by_name_none _ _ Hnot). }
  rewrite Hlook in H. clear Hlook.
  split_ext H mapLower file;
    destruct (processImage o file) as [[[out W] H0]|];
    run_upload; cbn; (split; [reflexivity|]); read_log; reflexivity.
Qed.

(** X5: when the sanitized filename is that of a record and the random
    source is unavailable, the upload of a readable, allowed file fails with
    500 internalError right after the lookup: nothing is put, nothing is
    inserted. *)
Theorem upload_needs_random_source_on_collision
    (mapLower makeFilename : string -> string) (app : App) (o : Oracle) (c : Context)
    (w : World) (file : multipart.FileHeader) :
  FormFile c = Some file ->
  open_fails o 0 = false ->
  allowed app (extOf mapLower file) = true ->
  get_fails o = false ->
  In (makeFilename (multipart.Filename file)) (names (rows w)) ->
  rand_read o = None ->
  handleUploadMedia mapLower makeFilename app o c w
  = (Failed (HTTPError http.StatusInternalServerError "globals.messages.internalError" []),
     emit (EvGetMedia 0 (makeFilename (multipart.Filename file)) true) w).
Proof.
  intros Hf Ho Hall Hg HIn Hr. apply find_by_name in HIn as [m0 Hfind].
  unfold handleUploadMedia, Open. rewrite Hf, Ho. fold (extOf mapLower file).
  unfold allowed in Hall.
  assert (Hgate : negb (inArray "*" (Extensions app))
                  && negb (inArray (extOf mapLower file) (Extensions app)) = false).
  { destruct (inArray "*" (Extensions app)), (inArray (extOf mapLower file) (Extensions app));
      done. }
  rewrite Hgate. unfold resolveName, GetMedia, generateRandomString.
  rewrite Hg. cbn [Z.ltb Z.compare]. by rewrite Hfind, Hr.
Qed.

(** ** Uploads: the extension check, the other way round *)

(** X6: an upload answers UnsupportedType only from the extension check:
    the request carries a file, the type named in the error is the file's
    lowercased extension, the allowlist holds neither the wildcard nor that
    extension, and the world is untouched.  In particular an allowlist with
    the wildcard never gives this error. *)
Theorem unsupported_type_only_from_allowlist
    (mapLower makeFilename : string -> string) (app : App) (o : Oracle) (c : Context)
    (w w' : World) (ext : string) :
  handleUploadMedia mapLower makeFilename app o c w = (Failed (UnsupportedType ext), w') ->
  exists file,
    FormFile c = Some file
    /\ ext = extOf mapLower file
    /\ allowed app ext = false
    /\ w' = w.
Proof.
  intros H. unfold handleUploadMedia, UnsupportedType in H.
  destruct (FormFile c) as [file|]; [|run_upload].
  fold (extOf mapLower file) in H. unfold afterPut, makeThumbnail in H.
  exists file. unfold allowed.
  destruct (inArray "*" (Extensions app)) eqn:Hs;
    destruct (inArray (extOf mapLower file) (Extensions app)) eqn:He;
    cbn [negb andb] in H;
    split_ext H mapLower file;
    destruct (processImage o file) as [[[out W] H0]|];
    run_upload; repeat split; try done; by rewrite He.
Qed.

(** ** The extension ignores letter case *)

Lemma lower_separator (ch : ascii) :
  filepath.IsPathSeparator (strings.lower ch) = filepath.IsPathSeparator ch.
Proof. by destruct ch as [[] [] [] [] [] [] [] []]. Qed.

Lemma lower_dot (ch : ascii) :
  Ascii.eqb (strings.lower ch) "."%char = Ascii.eqb ch "."%char.
Proof. by destruct ch as [[] [] [] [] [] [] [] []]. Qed.

Lemma ext_loop_lower (l : list ascii) (seen : string) :
  filepath.ext_loop (map strings.lower l) (strings.lowerASCII seen)
  = strings.lowerASCII (filepath.ext_loop l seen).
Proof.
  revert seen. induction l as [|ch l IH]; intros seen; [reflexivity|].
  cbn [map filepath.ext_loop]. rewrite lower_separator, lower_dot.
  destruct (filepath.IsPathSeparator ch); [reflexivity|].
  destruct (Ascii.eqb ch "."%char); [reflexivity|].
  apply (IH (String ch seen)).
Qed.

Lemma list_of_lowerASCII (s : string) :
  list_ascii_of_string (strings.lowerASCII s) = map strings.lower (list_ascii_of_string s).
Proof. induction s as [|ch s IH]; cbn; [reflexivity | by rewrite IH]. Qed.

Lemma Ext_lowerASCII (path : string) :
  filepath.Ext (strings.lowerASCII path) = strings.lowerASCII (filepath.Ext path).
Proof.
  unfold filepath.Ext. rewrite list_of_lowerASCII, <- map_rev.
  apply (ext_loop_lower _ "").
Qed.

Lemma isASCII_bytes (s : string) :
  strings.isASCII s = true ->
  List.Forall (fun ch => (nat_of_ascii ch <? 128)%nat = true) (list_ascii_of_string s).
Proof.
  induction s as [|ch s IH]; cbn [strings.isASCII list_ascii_of_string]; intros E.
  - constructor.
  - apply andb_true_iff in E as [E1 E2]. constructor; [exact E1 | by apply IH].
Qed.

Lemma ext_loop_ASCII (l : list ascii) (seen : string) :
  List.Forall (fun ch => (nat_of_ascii ch <? 128)%nat = true) l ->
  strings.isASCII seen = true ->
  strings.isASCII (filepath.ext_loop l seen) = true.
Proof.
  intros Hl. revert seen. induction Hl as [|ch l Hch Hl IH]; intros seen Hs; [reflexivity|].
  cbn [filepath.ext_loop].
  destruct (filepath.IsPathSeparator ch); [reflexivity|].
  assert (Hnext : strings.isASCII (String ch seen) = true).
  { cbn [strings.isASCII]. by rewrite Hch, Hs. }
  destruct (Ascii.eqb ch "."%char); [exact Hnext | by apply IH].
Qed.

Lemma Ext_ASCII (path : string) :
  strings.isASCII path = true -> strings.isASCII (filepath.Ext path) = true.
Proof.
  intros E. unfold filepath.Ext. apply ext_loop_ASCII; [|reflexivity].
  apply List.Forall_rev, isASCII_bytes, E.
Qed.

(** X7: for filenames made of ASCII bytes, the extension the upload handler
    computes does not depend on the case of the letters: two such filenames
    with the same lowercase form get the same extension, hence the same
    allowlist, raster and vector decisions. *)
Theorem extension_ignores_case (mapLower : string -> string) (f1 f2 : multipart.FileHeader) :
  strings.isASCII (multipart.Filename f1) = true ->
  strings.isASCII (multipart.Filename f2) = true ->
  strings.ToLower mapLower (multipart.Filename f1)
    = strings.ToLower mapLower (multipart.Filename f2) ->
  extOf mapLower f1 = extOf mapLower f2.
Proof.
  intros A1 A2 E. unfold extOf, strings.ToLower in *.
  rewrite A1, A2 in E. rewrite (Ext_ASCII _ A1), (Ext_ASCII _ A2).
  by rewrite <- !Ext_lowerASCII, E.
Qed.

(** ** Retrieval: a pure read *)

(** X8: [handleGetMedia] changes neither the blobs nor the records nor the
    next id, whatever the request and the outcome; it makes exactly one
    port call. *)
Theorem get_media_is_read_only (app : App) (o : Oracle) (c : Context) (w : World) :
  let w' := snd (handleGetMedia app o c w) in
  blobs w' = blobs w /\ rows w' = rows w /\ next_id w' = next_id w
  /\ length (issued w w') = 1%nat.
Proof.
  cbv zeta. unfold handleGetMedia, GetMedia, QueryMedia.
  repeat case_match; simplify_eq; cbn;
    (split; [reflexivity|]); (split; [reflexivity|]); (split; [reflexivity|]);
    read_log; reflexivity.
Qed.

(** X9: with a positive id, [handleGetMedia] answers with a record only if
    that record is in the store and carries this id, never with a listing;
    when the lookup works and no record has the id it answers NotFound, and
    a failure of the store is passed on as it is. *)
Theorem get_media_by_positive_id (app : App) (o : Oracle) (c : Context) (w : World) :
  let id := fst (strconv.Atoi (Param_id c)) in
  let r := handleGetMedia app o c w in
  0 < id ->
  (forall code m, fst r = JSON code (OneMedia m) ->
     code = http.StatusOK /\ models.ID m = id /\ In m (rows w) /\ get_fails o = false)
  /\ (forall code p, fst r <> JSON code (Listing p))
  /\ (get_fails o = false -> List.find (by_id id) (rows w) = None ->
      fst r = Failed NotFound)
  /\ (get_fails o = true -> fst r = Failed PersistenceFailure).
Proof.
  intros id r Hid. subst r. unfold handleGetMedia. fold id.
  destruct (0 <? id) eqn:E; [|lia]. unfold GetMedia. rewrite E.
  destruct (get_fails o); cbn.
  - repeat split; try done.
  - destruct (List.find (by_id id) (rows w)) as [m0|] eqn:F; cbn.
    + apply find_some in F as [HIn Hb]. unfold by_id in Hb.
      apply Z.eqb_eq in Hb.
      repeat split; try done; intros; simplify_eq; done.
    + repeat split; try done.
Qed.

(** ** Deletion: what it leaves alone *)

(** X10: when the metadata store does not delete (it fails, or no record
    has the id), [handleDeleteMedia] passes the store's error on and stops:
    no blob delete is issued, blobs and records are unchanged. *)
Theorem delete_unknown_id_touches_no_blob (app : App) (o : Oracle) (c : Context) (w : World) :
  let id := fst (strconv.Atoi (Param_id c)) in
  let r := handleDeleteMedia app o c w in
  0 < id ->
  delete_media_fails o = true \/ List.find (by_id id) (rows w) = None ->
  fst r = Failed (if delete_media_fails o then PersistenceFailure else NotFound)
  /\ issued w (snd r) = [EvDeleteMedia id None]
  /\ blobs (snd r) = blobs w
  /\ rows (snd r) = rows w.
Proof.
  intros id r Hid Hcase. subst r. unfold handleDeleteMedia. fold id.
  destruct (id <? 1) eqn:E; [lia|]. unfold DeleteMedia.
  destruct (delete_media_fails o) eqn:Hd; cbn.
  - repeat split. by read_log.
  - destruct Hcase as [|Hnone]; [discriminate|]. rewrite Hnone. cbn.
    repeat split. by read_log.
Qed.

Lemma filter_keeps (f : models.Media -> bool) (l : list models.Media) :
  (forall x, In x l -> f x = true) -> List.filter f l = l.
Proof.
  induction l as [|a l IH]; intros Hall; [reflexivity|]. cbn.
  rewrite (Hall a) by (by left). f_equal. apply IH. intros x Hx. apply Hall. by right.
Qed.

(** X11: a deletion that answers with success found a record with the id;
    it leaves every blob under a key other than the record's filename and
    "thumb_" + filename as it was (the record's own thumbnail name is not
    consulted), it empties each of these two keys whose delete does not
    fail, and it keeps every record with another id. *)
Theorem delete_touches_two_keys_only (app : App) (o : Oracle) (c : Context)
    (w w' : World) (code : Z) (body : Data) :
  handleDeleteMedia app o c w = (JSON code body, w') ->
  let id := fst (strconv.Atoi (Param_id c)) in
  exists m,
    List.find (by_id id) (rows w) = Some m
    /\ (forall k, k <> models.Filename m -> k <> thumbPrefix +:+ models.Filename m ->
          blobs w' !! k = blobs w !! k)
    /\ (delete_fails o (models.Filename m) = false ->
          blobs w' !! models.Filename m = None)
    /\ (delete_fails o (thumbPrefix +:+ models.Filename m) = false ->
          blobs w' !! (thumbPrefix +:+ models.Filename m) = None)
    /\ (forall x, In x (rows w) -> models.ID x <> id -> In x (rows w')).
Proof.
  intros H id. unfold handleDeleteMedia in H. fold id in H.
  destruct (id <? 1); [discriminate|]. unfold DeleteMedia in H.
  destruct (delete_media_fails o); [discriminate|].
  destruct (List.find (by_id id) (rows w)) as [m|] eqn:F; [|discriminate].
  exists m. split; [reflexivity|].
  unfold Delete in H. cbn in H.
  assert (Hrows : forall x, In x (rows w) -> models.ID x <> id ->
                    In x (List.filter (fun x0 => negb (by_id id x0)) (rows w))).
  { intros x Hx Hne. apply filter_In. split; [exact Hx|].
    unfold by_id. apply negb_true_iff, Z.eqb_neq, Hne. }
  destruct (delete_fails o (models.Filename m)) eqn:D1;
    destruct (delete_fails o (thumbPrefix +:+ models.Filename m)) eqn:D2;
    cbn in H; injection H as <- <- <-; cbn;
    (split; [intros k K1 K2; rewrite ?lookup_delete; repeat case_decide; congruence|]);
    (split; [intros Hgo; try discriminate;
             rewrite ?lookup_delete; repeat case_decide; congruence|]);
    (split; [intros Hgo; try discriminate;
             rewrite ?lookup_delete; repeat case_decide; congruence|]);
    exact Hrows.
Qed.

(** ** Upload, then delete *)

Lemma find_last (f : models.Media -> bool) (l : list models.Media) (m : models.Media) :
  (forall x, In x l -> f x = false) -> f m = true -> List.find f (l ++ [m]) = Some m.
Proof.
  induction l as [|a l IH]; intros Hall Hm; cbn; [by rewrite Hm|].
  rewrite (Hall a) by (by left). apply IH; [|exact Hm].
  intros x Hx. apply Hall. by right.
Qed.

Lemma filter_drops_last (f : models.Media -> bool) (l : list models.Media) (m : models.Media) :
  (forall x, In x l -> f x = true) -> f m = false -> List.filter f (l ++ [m]) = l.
Proof.
  intros Hall Hm. rewrite List.filter_app, (filter_keeps f l Hall). cbn.
  rewrite Hm. apply app_nil_r.
Qed.

(** The world a successful upload leaves: one more row, and the blobs of
    before with the original put under the record's filename and, for a
    raster extension, the thumbnail put after it. *)
Lemma successful_upload_world
    (mapLower makeFilename : string -> string) (app : App) (o : Oracle) (c : Context)
    (w w' : World) (m : models.Media) :
  handleUploadMedia mapLower makeFilename app o c w = (JSON http.StatusOK (OneMedia m), w') ->
  rows w' = rows w ++ [m] /\ models.ID m = next_id w
  /\ exists b1,
       (blobs w' = <[models.Filename m := b1]> (blobs w)
        /\ (models.Thumb m = "" \/ models.Thumb m = models.Filename m))
       \/ (exists b2,
             blobs w' = <[models.Thumb m := b2]> (<[models.Filename m := b1]> (blobs w))
             /\ models.Thumb m = stored_as o (thumbPrefix +:+ models.Filename m)).
Proof.
  intros H. unfold handleUploadMedia in H.
  destruct (FormFile c) as [file|]; [|run_upload].
  fold (extOf mapLower file) in H. unfold afterPut, makeThumbnail in H.
  split_ext H mapLower file;
    destruct (processImage o file) as [[[out W] H0]|];
    run_upload; cbn; (split; [reflexivity|]); (split; [reflexivity|]);
    eexists; first [by left; split; [reflexivity | tauto]
                   | by right; eexists; split; reflexivity].
Qed.

(** X12: uploading and then deleting the new record undoes the upload.
    When the id the store assigned was not in use, the blob deletes of the
    deletion succeed and the store kept the key asked for the thumbnail,
    the deletion answers 200, the records are those of before the upload,
    no blob is left under the record's filename or thumbnail name, and every
    other key holds what it held before the upload. *)
Theorem upload_then_delete_restores
    (mapLower makeFilename : string -> string) (app : App) (o o2 : Oracle) (c c2 : Context)
    (w w1 : World) (m : models.Media) :
  handleUploadMedia mapLower makeFilename app o c w = (JSON http.StatusOK (OneMedia m), w1) ->
  0 < next_id w ->
  (forall x, In x (rows w) -> models.ID x <> next_id w) ->
  fst (strconv.Atoi (Param_id c2)) = models.ID m ->
  delete_media_fails o2 = false ->
  (forall k, delete_fails o2 k = false) ->
  stored_as o (thumbPrefix +:+ models.Filename m) = thumbPrefix +:+ models.Filename m ->
  let r := handleDeleteMedia app o2 c2 w1 in
  fst r = JSON http.StatusOK (Flag true)
  /\ rows (snd r) = rows w
  /\ blobs (snd r) !! models.Filename m = None
  /\ (models.Thumb m <> "" -> blobs (snd r) !! models.Thumb m = None)
  /\ (forall k, k <> models.Filename m -> k <> thumbPrefix +:+ models.Filename m ->
        blobs (snd r) !! k = blobs w !! k).
Proof.
  intros Hup Hpos Hnew Hid Hdm Hdel Hkeep r. subst r.
  destruct (successful_upload_world _ _ _ _ _ _ _ _ Hup) as (Hrows & Hmid & b1 & Hblobs).
  unfold handleDeleteMedia. rewrite Hid, Hmid.
  destruct (next_id w <? 1) eqn:E; [lia|].
  unfold DeleteMedia. rewrite Hdm, Hrows.
  rewrite (find_last (by_id (next_id w)) (rows w) m);
    [| intros x Hx; apply Z.eqb_neq; by apply Hnew
     | unfold by_id; apply Z.eqb_eq; exact Hmid].
  unfold Delete. rewrite !Hdel. cbn.
  rewrite (filter_drops_last (fun x => negb (by_id (next_id w) x)) (rows w) m);
    [| intros x Hx; apply negb_true_iff, Z.eqb_neq; by apply Hnew
     | unfold by_id; apply negb_false_iff, Z.eqb_eq; exact Hmid].
  split; [reflexivity|]. split; [reflexivity|].
  destruct Hblobs as [[Hb Hth] | (b2 & Hb & Hth)]; rewrite Hb.
  - split; [rewrite !lookup_delete; repeat case_decide; congruence|].
    split.
    + intros Hne. destruct Hth as [Hth | Hth]; [congruence|]. rewrite Hth.
      rewrite !lookup_delete; repeat case_decide; congruence.
    + intros k K1 K2. rewrite !lookup_delete. repeat case_decide; try congruence.
      by rewrite lookup_insert_ne.
  - rewrite Hth, Hkeep.
    split; [rewrite !lookup_delete; repeat case_decide; congruence|].
    split; [intros _; rewrite !lookup_delete; repeat case_decide; congruence|].
    intros k K1 K2. rewrite !lookup_delete. repeat case_decide; try congruence.
    by rewrite !lookup_insert_ne.
Qed.

(** ** Uploads: pictures that are none, vector files that are not recorded *)

Lemma processImage_raw (o : Oracle) (file : multipart.FileHeader) (bytes : string) :
  multipart.Body file = imaging.Raw bytes -> open_fails o 1 = false ->
  processImage o file = Err DecodeFailure.
Proof. intros Hb Ho. unfold processImage, Open. by rewrite Ho, Hb. Qed.

(** X13: an upload with a raster extension whose bytes do not decode never
    succeeds and adds no record; no thumbnail put and no insert is issued;
    once the original was stored the answer is 500 errorResizing with the
    decoder's error, and the original's key is deleted again. *)
Theorem undecodable_picture_is_rejected
    (mapLower makeFilename : string -> string) (app : App) (o : Oracle) (c : Context)
    (w w' : World) (resp : Response) (file : multipart.FileHeader) (bytes : string) :
  FormFile c = Some file ->
  inArray (extOf mapLower file) imageExts = true ->
  multipart.Body file = imaging.Raw bytes ->
  open_fails o 1 = false ->
  handleUploadMedia mapLower makeFilename app o c w = (resp, w') ->
  (exists e, resp = Failed e)
  /\ rows w' = rows w
  /\ (length (List.filter is_Put (issued w w')) <= 1)%nat
  /\ List.filter is_InsertMedia (issued w w') = []
  /\ (forall k, In k (stored_keys (issued w w')) ->
        resp = Failed (HTTPError http.StatusInternalServerError "media.errorResizing"
                                 [("error", Error DecodeFailure)])
        /\ In (EvDelete k (negb (delete_fails o k))) (issued w w')).
Proof.
  intros Hf Hi Hb Ho H. unfold handleUploadMedia in H. rewrite Hf in H.
  fold (extOf mapLower file) in H. unfold afterPut, makeThumbnail in H.
  rewrite Hi, (processImage_raw _ _ _ Hb Ho) in H.
  run_upload; cbn [cleanUp thumbfName] in *;
    try (rewrite issued_refl; cbn; repeat split; eauto; try lia; intros ? []);
    read_log; cbn;
    (split; [eauto|]); (split; [reflexivity|]); (split; [lia|]);
    (split; [reflexivity|]);
    intros k Hk; repeat (destruct Hk as [Hk | Hk]; simplify_eq); try contradiction;
    (split; [reflexivity|]);
    repeat match goal with
           | E : delete_fails _ _ = _ |- _ => rewrite E; clear E
           end; cbn; tauto.
Qed.

(** X14: when the insert is refused for an upload with a vector extension,
    the cleanup deletes the original's key twice, once as the original and
    once as the thumbnail the record would have named (once only if the
    store returned the empty key); the put of the original is the only blob
    stored. *)
Theorem vector_cleanup_deletes_original_twice
    (mapLower makeFilename : string -> string) (app : App) (o : Oracle) (c : Context)
    (w w' : World) (file : multipart.FileHeader) :
  FormFile c = Some file ->
  inArray (extOf mapLower file) vectorExts = true ->
  handleUploadMedia mapLower makeFilename app o c w = (Failed PersistenceFailure, w') ->
  exists f,
    stored_keys (issued w w') = [f]
    /\ List.filter is_Delete (issued w w')
       = (if String.eqb f ""
          then [EvDelete f (negb (delete_fails o f))]
          else [EvDelete f (negb (delete_fails o f));
                EvDelete f (negb (delete_fails o f))]).
Proof.
  intros Hf Hv H. pose proof (vector_not_image _ Hv) as Hi.
  unfold handleUploadMedia in H. rewrite Hf in H.
  fold (extOf mapLower file) in H. unfold afterPut in H. rewrite Hi, Hv in H.
  run_upload; cbn [cleanUp thumbfName] in *; try congruence;
    eexists; (split; [read_log; reflexivity|]); read_log;
    repeat match goal with
           | E : String.eqb _ _ = _ |- _ => rewrite E; clear E
           | E : delete_fails _ _ = _ |- _ => rewrite E; clear E
           end; reflexivity.
Qed.

(** ** The further properties on concrete runs *)

(** X1 at the upload of cat.png with a refused insert. *)
Lemma failed_upload_adds_no_record_witness :
  rows (after lost_cat) = rows empty_world /\ next_id (after lost_cat) = next_id empty_world.
Proof.
  apply (failed_upload_adds_no_record plain keep any_ext (with_insert_failing calm) cat_png
           empty_world (after lost_cat) PersistenceFailure).
  reflexivity.
Defined.

(** X2 at the upload of cat.png while every put fails. *)
Lemma upload_without_stored_blob_changes_nothing_witness :
  (exists e, fst refused_cat = Failed e)
  /\ List.filter is_Delete (issued empty_world (after refused_cat)) = []
  /\ blobs (after refused_cat) = blobs empty_world
  /\ rows (after refused_cat) = rows empty_world.
Proof.
  apply (upload_without_stored_blob_changes_nothing plain keep any_ext (with_put_failing calm)
           cat_png empty_world (after refused_cat) (fst refused_cat));
    reflexivity.
Defined.

(** X3 at scenario A. *)
Lemma successful_upload_record_witness :
  exists m,
    OneMedia (media_of (fst one_cat)) = OneMedia m /\ 200 = http.StatusOK
    /\ rows (after one_cat) = rows empty_world ++ [m]
    /\ models.ID m = next_id empty_world
    /\ models.ContentType m = multipart.Header_ContentType cat_file
    /\ models.Provider m = MediaProvider any_ext
    /\ List.filter is_Delete (issued empty_world (after one_cat)) = []
    /\ is_Some (blobs (after one_cat) !! models.Filename m)
    /\ (models.Thumb m <> "" -> is_Some (blobs (after one_cat) !! models.Thumb m)).
Proof.
  apply (successful_upload_record plain keep any_ext calm cat_png empty_world (after one_cat)
           cat_file 200 (OneMedia (media_of (fst one_cat))));
    reflexivity.
Defined.

(** X4 at a second upload of cat.png while the lookup fails: the name is
    taken as free and recorded a second time. *)
Lemma free_name_is_kept_witness :
  get_fails (with_lookup_failing calm) = true
  /\ models.Filename (media_of (fst unseen_cat)) = "cat.png"
  /\ names (rows (after unseen_cat)) = ["cat.png"; "cat.png"].
Proof.
  split; [reflexivity|]. split; [|reflexivity].
  apply (free_name_is_kept plain keep any_ext (with_lookup_failing calm) cat_png
           (after one_cat) (after unseen_cat) cat_file (media_of (fst unseen_cat))).
  - reflexivity.
  - left. reflexivity.
  - reflexivity.
Defined.

(** X5 at a second upload of cat.png without a random source. *)
Lemma upload_needs_random_source_on_collision_witness :
  unlucky_cat
  = (Failed (HTTPError http.StatusInternalServerError "globals.messages.internalError" []),
     emit (EvGetMedia 0 (keep (multipart.Filename cat_file)) true) (after one_cat)).
Proof.
  apply (upload_needs_random_source_on_collision plain keep any_ext (without_random calm) cat_png
           (after one_cat) cat_file); try reflexivity.
  left. reflexivity.
Defined.

(** X6 at scenario C. *)
Lemma unsupported_type_only_from_allowlist_witness :
  exists file,
    FormFile (upload "notes.pdf" "application/pdf" (imaging.Raw "%PDF-1.7")) = Some file
    /\ "pdf" = extOf plain file
    /\ allowed png_jpg "pdf" = false
    /\ empty_world = empty_world.
Proof.
  apply (unsupported_type_only_from_allowlist plain keep png_jpg calm
           (upload "notes.pdf" "application/pdf" (imaging.Raw "%PDF-1.7"))
           empty_world empty_world "pdf").
  reflexivity.
Defined.

(** X7 at Cat.PNG and cat.png. *)
Lemma extension_ignores_case_witness :
  extOf plain (file_of "Cat.PNG" "image/png" (imaging.Raw "")) = extOf plain cat_file.
Proof.
  apply (extension_ignores_case plain (file_of "Cat.PNG" "image/png" (imaging.Raw ""))
           cat_file); reflexivity.
Defined.

(** X9 at the ids "1" (recorded) and "7" (not recorded) after scenario A. *)
Lemma get_media_by_positive_id_witness :
  fst (handleGetMedia any_ext calm (with_id "1") (after one_cat))
    = JSON http.StatusOK (OneMedia (media_of (fst one_cat)))
  /\ models.ID (media_of (fst one_cat)) = 1
  /\ fst (handleGetMedia any_ext calm (with_id "7") (after one_cat)) = Failed NotFound.
Proof.
  assert (H1 : 0 < fst (strconv.Atoi (Param_id (with_id "1")))) by (vm_compute; reflexivity).
  assert (H7 : 0 < fst (strconv.Atoi (Param_id (with_id "7")))) by (vm_compute; reflexivity).
  destruct (get_media_by_positive_id any_ext calm (with_id "1") (after one_cat) H1)
    as (Hrec & _).
  destruct (get_media_by_positive_id any_ext calm (with_id "7") (after one_cat) H7)
    as (_ & _ & Hnone & _).
  split; [reflexivity|].
  split.
  - apply (Hrec 200 (media_of (fst one_cat))). reflexivity.
  - apply Hnone; reflexivity.
Defined.

(** X10 at the id "7" after scenario A. *)
Lemma delete_unknown_id_touches_no_blob_witness :
  fst (handleDeleteMedia any_ext calm (with_id "7") (after one_cat)) = Failed NotFound
  /\ blobs (after (handleDeleteMedia any_ext calm (with_id "7") (after one_cat)))
     = blobs (after one_cat).
Proof.
  destruct (delete_unknown_id_touches_no_blob any_ext calm (with_id "7") (after one_cat))
    as (Hresp & _ & Hblobs & _).
  - vm_compute. reflexivity.
  - right. reflexivity.
  - split; [exact Hresp | exact Hblobs].
Defined.

(** X11 at scenario D. *)
Lemma delete_touches_two_keys_only_witness :
  exists m,
    List.find (by_id 1) (rows (after one_cat)) = Some m
    /\ (delete_fails calm (models.Filename m) = false ->
        blobs (after cat_deleted) !! models.Filename m = None).
Proof.
  destruct (delete_touches_two_keys_only any_ext calm (with_id "1")
              (after one_cat) (after cat_deleted) 200 (Flag true) eq_refl)
    as (m & Hfind & _ & Hgone & _).
  exists m. split; [exact Hfind | exact Hgone].
Defined.

(** X12 at scenario A followed by scenario D. *)
Lemma upload_then_delete_restores_witness :
  fst cat_deleted = JSON http.StatusOK (Flag true)
  /\ rows (after cat_deleted) = rows empty_world
  /\ blobs (after cat_deleted) !! "cat.png" = None
  /\ blobs (after cat_deleted) !! "thumb_cat.png" = None.
Proof.
  destruct (upload_then_delete_restores plain keep any_ext calm calm cat_png (with_id "1")
              empty_world (after one_cat) (media_of (fst one_cat)))
    as (Hresp & Hrows & Horig & Hthumb & _).
  - reflexivity.
  - reflexivity.
  - intros x [].
  - reflexivity.
  - reflexivity.
  - intros k. reflexivity.
  - reflexivity.
  - split; [exact Hresp|]. split; [exact Hrows|]. split; [exact Horig|].
    apply Hthumb. discriminate.
Defined.

(** X13 at fake.png. *)
Lemma undecodable_picture_is_rejected_witness :
  In "fake.png" (stored_keys (issued empty_world (after fake_png)))
  /\ fst fake_png = Failed (HTTPError http.StatusInternalServerError "media.errorResizing"
                                      [("error", Error DecodeFailure)])
  /\ blobs (after fake_png) = ∅.
Proof.
  assert (HIn : In "fake.png" (stored_keys (issued empty_world (after fake_png))))
    by (left; reflexivity).
  split; [exact HIn|]. split; [|reflexivity].
  destruct (undecodable_picture_is_rejected plain keep any_ext calm
              (upload "fake.png" "image/png" (imaging.Raw "not a picture"))
              empty_world (after fake_png) (fst fake_png) fake_png_file "not a picture"
              eq_refl eq_refl eq_refl eq_refl eq_refl)
    as (_ & _ & _ & _ & Hstored).
  exact (proj1 (Hstored "fake.png" HIn)).
Defined.

(** X14 at logo.svg with a refused insert. *)
Lemma vector_cleanup_deletes_original_twice_witness :
  exists f,
    stored_keys (issued empty_world (after lost_logo)) = [f]
    /\ List.filter is_Delete (issued empty_world (after lost_logo))
       = (if String.eqb f ""
          then [EvDelete f (negb (delete_fails (with_insert_failing calm) f))]
          else [EvDelete f (negb (delete_fails (with_insert_failing calm) f));
                EvDelete f (negb (delete_fails (with_insert_failing calm) f))]).
Proof.
  apply (vector_cleanup_deletes_original_twice plain keep any_ext (with_insert_failing calm)
           logo_svg empty_world (after lost_logo) logo_file);
    reflexivity.
Defined.
